(** * RedStorm reconnaissance tools: source aggregation and fallback

    A shallow embedding of the Go packages [recon] (amass.go, whois.go,
    subdomain.go) and [enumeration] (the ffuf path brute-forcer), and the
    properties of their merge, fallback, normalisation and filtering code.

    Conventions of the embedding:
    - a Go [string] is a sequence of bytes: Rocq's [string] (a list of
      8-bit [ascii]);
    - a Go [int] is a [Z] in the 64-bit signed range, additions wrap
      ([int_add]);
    - a Go [map[string]T] is a [gmap string T]; reading a missing key gives
      the zero value;
    - a slice that the code always initialises with a literal is a [list];
      where the code can leave a slice [nil] it is a [slice] ([SNil] or
      [SList l]);
    - everything outside the process (external commands, the WHOIS client,
      the clock, the file system) is a [World]: a function from the history
      of calls made so far and the next call to its reply.  Code that talks
      to the world lives in the monad [M], which threads the history. *)

From Stdlib Require Import ZArith Ascii String List Bool Lia.
From Stdlib Require DecimalString.
From stdpp Require Import base option list gmap strings fin_maps.

Local Open Scope Z_scope.

(* ===================================================================== *)
(** * Go integers *)
(* ===================================================================== *)

Module GoInt.

Definition min_int : Z := - 2 ^ 63.
Definition max_int : Z := 2 ^ 63 - 1.

(** Two's complement wrap-around of a 64-bit signed [int]. *)
Definition wrap (z : Z) : Z := (z + 2 ^ 63) mod 2 ^ 64 - 2 ^ 63.

Definition int_add (a b : Z) : Z := wrap (a + b).

(** [len(x)] of a slice or string. *)
Definition len {A} (l : list A) : Z := Z.of_nat (length l).

(** [fmt.Sprintf("%d", n)]. *)
Definition itoa (n : Z) : string :=
  DecimalString.NilZero.string_of_int (Z.to_int n).

End GoInt.

(* ===================================================================== *)
(** * The parts of Go's [strings], [unicode] and [bufio] the code uses *)
(* ===================================================================== *)

(** Case mapping of text that is not plain ASCII needs the Unicode tables of
    the Go runtime; they are an interface here.  On ASCII text [ToLower] and
    [EqualFold] below do not consult it. *)
Class UnicodeTables := {
  unicode_ToLower : string → string;
  unicode_EqualFold : string → string → bool
}.

Module GoStrings.

Definition byte (c : ascii) : N := N_of_ascii c.

Definition eqb (s t : string) : bool := bool_decide (s = t).

Definition HasPrefix (s prefix : string) : bool := String.prefix prefix s.

Definition HasSuffix (s suffix : string) : bool :=
  String.prefix (String.rev suffix) (String.rev s).

Fixpoint Contains (s substr : string) : bool :=
  String.prefix substr s ||
  match s with
  | EmptyString => false
  | String _ s' => Contains s' substr
  end.

Fixpoint IndexByteIn (chars : string) (c : ascii) : bool :=
  match chars with
  | EmptyString => false
  | String d chars' => Ascii.eqb c d || IndexByteIn chars' c
  end.

(** [strings.ContainsAny] for an ASCII [chars]. *)
Fixpoint ContainsAny (s chars : string) : bool :=
  match s with
  | EmptyString => false
  | String c s' => IndexByteIn chars c || ContainsAny s' chars
  end.

(** ** White space

    [unicode.IsSpace]: the ASCII characters tab, line feed, vertical tab,
    form feed, carriage return and space, and in UTF-8 encoding U+0085,
    U+00A0, U+1680, U+2000..U+200A, U+2028, U+2029, U+202F, U+205F and
    U+3000. *)
Definition isASCIISpace (c : ascii) : bool :=
  let n := byte c in
  ((9 <=? n) && (n <=? 13) || (n =? 32))%N.

Definition isSpace2 (b0 b1 : N) : bool :=
  ((b0 =? 194) && ((b1 =? 133) || (b1 =? 160)))%N.

Definition isSpace3 (b0 b1 b2 : N) : bool :=
  ((b0 =? 225) && (b1 =? 154) && (b2 =? 128)
   || (b0 =? 226) && (b1 =? 128)
      && ((128 <=? b2) && (b2 <=? 138) || (b2 =? 168) || (b2 =? 169) || (b2 =? 175))
   || (b0 =? 226) && (b1 =? 129) && (b2 =? 159)
   || (b0 =? 227) && (b1 =? 128) && (b2 =? 128))%N.

(** Width in bytes of the white-space rune at the head of [s]; 0 when the
    rune at the head is not white space. *)
Definition spaceWidth (s : string) : nat :=
  match s with
  | EmptyString => 0
  | String c0 s1 =>
    if isASCIISpace c0 then 1 else
    match s1 with
    | EmptyString => 0
    | String c1 s2 =>
      if isSpace2 (byte c0) (byte c1) then 2 else
      match s2 with
      | EmptyString => 0
      | String c2 _ => if isSpace3 (byte c0) (byte c1) (byte c2) then 3 else 0
      end
    end
  end%nat.

(** The same for the last rune, on the reversed string. *)
Definition spaceWidthRev (r : string) : nat :=
  match r with
  | EmptyString => 0
  | String c2 r1 =>
    if isASCIISpace c2 then 1 else
    match r1 with
    | EmptyString => 0
    | String c1 r2 =>
      if isSpace2 (byte c1) (byte c2) then 2 else
      match r2 with
      | EmptyString => 0
      | String c0 _ => if isSpace3 (byte c0) (byte c1) (byte c2) then 3 else 0
      end
    end
  end%nat.

(** Drops runes from the head while [width] finds one; [skip] counts the
    bytes of the current rune still to drop. *)
Fixpoint trimGo (width : string → nat) (skip : nat) (s : string) : string :=
  match s with
  | EmptyString => EmptyString
  | String _ s' =>
    match skip with
    | S k => trimGo width k s'
    | O =>
      match width s with
      | O => s
      | S k => trimGo width k s'
      end
    end
  end.

Definition TrimSpace (s : string) : string :=
  String.rev (trimGo spaceWidthRev 0 (String.rev (trimGo spaceWidth 0 s))).

(** [strings.Fields]: the maximal runs of bytes between white-space runes.
    [cur] is the field being read, reversed. *)
Fixpoint fieldsGo (skip : nat) (cur : string) (s : string) : list string :=
  let flush := match cur with EmptyString => [] | _ => [String.rev cur] end in
  match s with
  | EmptyString => flush
  | String c s' =>
    match skip with
    | S k => fieldsGo k cur s'
    | O =>
      match spaceWidth s with
      | O => fieldsGo 0 (String c cur) s'
      | S k => flush ++ fieldsGo k EmptyString s'
      end
    end
  end.

Definition Fields (s : string) : list string := fieldsGo 0 EmptyString s.

(** [strings.Trim] for an ASCII [cutset]. *)
Fixpoint trimLeftBytes (cutset : string) (s : string) : string :=
  match s with
  | EmptyString => EmptyString
  | String c s' => if IndexByteIn cutset c then trimLeftBytes cutset s' else s
  end.

Definition Trim (s cutset : string) : string :=
  trimLeftBytes cutset (String.rev (trimLeftBytes cutset (String.rev s))).

Definition TrimPrefix (s prefix : string) : string :=
  if HasPrefix s prefix
  then String.substring (String.length prefix) (String.length s - String.length prefix) s
  else s.

Definition TrimSuffix (s suffix : string) : string :=
  if HasSuffix s suffix
  then String.substring 0 (String.length s - String.length suffix) s
  else s.

(** [strings.Split(s, sep)] for a one-byte separator. *)
Fixpoint splitGo (sep : ascii) (cur : string) (s : string) : list string :=
  match s with
  | EmptyString => [String.rev cur]
  | String c s' =>
    if Ascii.eqb c sep
    then String.rev cur :: splitGo sep EmptyString s'
    else splitGo sep (String c cur) s'
  end.

Definition Split (s : string) (sep : ascii) : list string :=
  splitGo sep EmptyString s.

(** [strings.SplitN(s, sep, 2)] for a one-byte separator: the text before
    the first separator and the text after it, or [s] alone. *)
Fixpoint splitFirst (sep : ascii) (cur : string) (s : string) : list string :=
  match s with
  | EmptyString => [String.rev cur]
  | String c s' =>
    if Ascii.eqb c sep
    then [String.rev cur; s']
    else splitFirst sep (String c cur) s'
  end.

Definition SplitN2 (s : string) (sep : ascii) : list string :=
  splitFirst sep EmptyString s.

Fixpoint Join (elems : list string) (sep : string) : string :=
  match elems with
  | [] => EmptyString
  | [e] => e
  | e :: rest => e +:+ sep +:+ Join rest sep
  end.

(** [strings.ReplaceAll(s, old, new)] for a non-empty [old]; [skip]
    counts the bytes of the occurrence just replaced. *)
Fixpoint replaceGo (old new : string) (skip : nat) (s : string) : string :=
  match s with
  | EmptyString => EmptyString
  | String c s' =>
    match skip with
    | S k => replaceGo old new k s'
    | O =>
      if String.prefix old s
      then new +:+ replaceGo old new (String.length old - 1) s'
      else String c (replaceGo old new 0 s')
    end
  end.

Definition ReplaceAll (s old new : string) : string := replaceGo old new 0 s.

(** ** Case *)

Fixpoint isASCII (s : string) : bool :=
  match s with
  | EmptyString => true
  | String c s' => (byte c <? 128)%N && isASCII s'
  end.

Definition lowerByte (c : ascii) : ascii :=
  let n := byte c in
  if ((65 <=? n) && (n <=? 90))%N then ascii_of_N (n + 32) else c.

Fixpoint asciiLower (s : string) : string :=
  match s with
  | EmptyString => EmptyString
  | String c s' => String (lowerByte c) (asciiLower s')
  end.

Definition ToLower `{UnicodeTables} (s : string) : string :=
  if isASCII s then asciiLower s else unicode_ToLower s.

Definition EqualFold `{UnicodeTables} (s t : string) : bool :=
  if isASCII s && isASCII t
  then eqb (asciiLower s) (asciiLower t)
  else unicode_EqualFold s t.

End GoStrings.

Module Bufio.

(** [bufio.MaxScanTokenSize]: a line that does not fit in a buffer of this
    many bytes makes [Scan] return false, which ends the loop over it. *)
Definition MaxScanTokenSize : N := 65536.

Definition fits (piece : string) : bool :=
  (N.of_nat (String.length piece) <? MaxScanTokenSize)%N.

Definition dropCR (line : string) : string :=
  match String.rev line with
  | String c r => if (GoStrings.byte c =? 13)%N then String.rev r else line
  | EmptyString => line
  end.

(** The tokens of a [bufio.Scanner] with the default [ScanLines] split on
    the pieces between line feeds: a last piece that is empty is no token,
    a piece of [MaxScanTokenSize] bytes or more stops the scan. *)
Fixpoint scanPieces (pieces : list string) : list string :=
  match pieces with
  | [] => []
  | [p] =>
    match p with
    | EmptyString => []
    | _ => if fits p then [dropCR p] else []
    end
  | p :: rest =>
    if fits p
    then dropCR p :: scanPieces rest
    else []
  end.

Definition ScanLines (input : string) : list string :=
  scanPieces (GoStrings.Split input "010"%char).

End Bufio.


(* ===================================================================== *)
(** * The outside world *)
(* ===================================================================== *)

Module Env.

(** What the code asks of its environment. *)
Inductive Call :=
| LookPath (file : string)                       (* exec.LookPath *)
| Run (deadline : option Z) (name : string)
      (args : list string) (stdin : string)      (* exec.Command(...).Output / CombinedOutput / Run *)
| TempDir (pattern : string)                     (* ioutil.TempDir *)
| WriteFile (path content : string)              (* ioutil.WriteFile *)
| ReadFile (path : string)                       (* ioutil.ReadFile *)
| RemoveAll (path : string)                      (* os.RemoveAll *)
| Abs (path : string)                            (* filepath.Abs *)
| Now                                            (* time.Now().Format(time.RFC3339) *)
| WhoisLib (domain : string)                     (* whois.Whois of likexian/whois *)
| TcpWhois (domain server : string)              (* tcpWhois: dial, write, read all *)
| Stderr (text : string).                        (* fmt.Fprintf(os.Stderr, ...) *)

(** The reply: the bytes returned and the error, if any ([err.Error()]). *)
Record Reply := { out : string; err : option string }.

Definition Trace := list (Call * Reply).

Definition World := Trace → Call → Reply.

(** Computations that talk to the world. *)
Definition M (A : Type) : Type := World → Trace → A * Trace.

Definition ret {A} (a : A) : M A := λ _ t, (a, t).

Definition bind {A B} (m : M A) (k : A → M B) : M B :=
  λ w t, let '(a, t') := m w t in k a w t'.

Definition call (c : Call) : M Reply :=
  λ w t, let r := w t c in (r, t ++ [(c, r)]).

Definition failed (r : Reply) : bool :=
  match err r with Some _ => true | None => false end.

(** A [for ... range] loop whose body talks to the world. *)
Fixpoint foldM {A B} (f : B → A → M B) (l : list A) (b : B) : M B :=
  match l with
  | [] => ret b
  | x :: l' => bind (f b x) (foldM f l')
  end.

(** Runs a computation from the empty history. *)
Definition run {A} (w : World) (m : M A) : A * Trace := m w [].
Definition result {A} (w : World) (m : M A) : A := fst (run w m).
Definition calls {A} (w : World) (m : M A) : list Call := (snd (run w m)).*1.

End Env.

(** stdpp's monad notation: [x ← m; k]. *)
Global Instance M_ret : MRet Env.M := @Env.ret.
Global Instance M_bind : MBind Env.M := λ A B k m, Env.bind m k.

(** A Go slice that may be [nil]. *)
Inductive slice (A : Type) :=
| SNil
| SList (l : list A).
Arguments SNil {A}.
Arguments SList {A} l.

Module Slice.
Definition elems {A} (s : slice A) : list A :=
  match s with SNil => [] | SList l => l end.
Definition len {A} (s : slice A) : Z := GoInt.len (elems s).
(** [append(s, x)] is never [nil]. *)
Definition append {A} (s : slice A) (x : A) : slice A := SList (elems s ++ [x]).
Definition is_nil {A} (s : slice A) : bool :=
  match s with SNil => true | SList _ => false end.
End Slice.

(* ===================================================================== *)
(** * recon/amass.go *)
(* ===================================================================== *)

Module SubdomainInfo.
Record t := mk { Name : string; IPs : list string; Sources : list string }.
End SubdomainInfo.

Module DebugInfo.
Record t := mk {
  RawOutput : list string;
  ParseErrors : list string;
  TotalLines : Z;
  ParsedLines : Z
}.
End DebugInfo.

Module AmassResult.
Record t := mk {
  Domain : string;
  Subdomains : list SubdomainInfo.t;
  Sources : gmap string Z;
  Count : Z;
  Timestamp : string;
  Command : string;
  Mode : string;
  Status : string;
  Debug : DebugInfo.t
}.

Definition set_Subdomains (v : list SubdomainInfo.t) (r : t) : t :=
  mk (Domain r) v (Sources r) (Count r) (Timestamp r) (Command r) (Mode r) (Status r) (Debug r).
Definition set_Sources (v : gmap string Z) (r : t) : t :=
  mk (Domain r) (Subdomains r) v (Count r) (Timestamp r) (Command r) (Mode r) (Status r) (Debug r).
Definition set_Count (v : Z) (r : t) : t :=
  mk (Domain r) (Subdomains r) (Sources r) v (Timestamp r) (Command r) (Mode r) (Status r) (Debug r).
Definition set_Command (v : string) (r : t) : t :=
  mk (Domain r) (Subdomains r) (Sources r) (Count r) (Timestamp r) v (Mode r) (Status r) (Debug r).
Definition set_Mode (v : string) (r : t) : t :=
  mk (Domain r) (Subdomains r) (Sources r) (Count r) (Timestamp r) (Command r) v (Status r) (Debug r).
Definition set_Status (v : string) (r : t) : t :=
  mk (Domain r) (Subdomains r) (Sources r) (Count r) (Timestamp r) (Command r) (Mode r) v (Debug r).
Definition set_Debug (v : DebugInfo.t) (r : t) : t :=
  mk (Domain r) (Subdomains r) (Sources r) (Count r) (Timestamp r) (Command r) (Mode r) (Status r) v.
End AmassResult.

Module Amass.
Import GoStrings GoInt.
Import AmassResult.

(** The [seen] map, shared by reference between the driver, the parser and
    the fallback: every function takes it and returns it. *)
Definition State : Type := AmassResult.t * gmap string bool.

Definition seen_get (seen : gmap string bool) (k : string) : bool :=
  default false (seen !! k).

(** [m[k]++] on a [map[string]int]. *)
Definition incr (m : gmap string Z) (k : string) : gmap string Z :=
  <[k := int_add (default 0 (m !! k)) 1]> m.

(** The block the parser and the fallback run for a name that passed
    their tests: append the entity, mark the name, count it for the
    source. *)
Definition addSubdomain (name source : string) (st : State) : State :=
  let '(result, seen) := st in
  let result :=
    set_Subdomains
      (Subdomains result ++ [SubdomainInfo.mk name [] [source]]) result in
  let seen := <[name := true]> seen in
  let result := set_Sources (incr (Sources result) source) result in
  (result, seen).

Definition incrParsedLines (st : State) : State :=
  let '(result, seen) := st in
  let d := Debug result in
  (set_Debug (DebugInfo.mk (DebugInfo.RawOutput d) (DebugInfo.ParseErrors d)
                (DebugInfo.TotalLines d) (int_add (DebugInfo.ParsedLines d) 1))
     result, seen).

(** The body of the inner loop of [parseAmassOut], for one token. *)
Definition parseToken (domain source : string) (st : State) (tok : string) : State :=
  let tok := Trim tok "[](){}<>" in
  if HasSuffix tok ("." +:+ domain) && negb (eqb tok domain)
     && negb (seen_get (snd st) tok)
  then addSubdomain tok source st
  else st.

(** The body of the outer loop of [parseAmassOut], for one scanned line. *)
Definition parseLine (domain source : string) (st : State) (text : string) : State :=
  let line := TrimSpace text in
  if eqb line "" || Contains line "The enumeration has finished" then st
  else
    let st := incrParsedLines st in
    if HasSuffix line ("." +:+ domain) && negb (eqb line domain) then
      if negb (seen_get (snd st) line)
      then addSubdomain line source st
      else st
    else
      fold_left (parseToken domain source) (Fields line) st.

Definition parseAmassOut (output domain source : string) (result : AmassResult.t)
    (seen : gmap string bool) (debug : bool) : State :=
  fold_left (parseLine domain source) (Bufio.ScanLines output) (result, seen).

Definition indicators : list string :=
  ["www"; "mail"; "api"; "admin"; "portal"; "secure"; "cdn"; "static";
   "app"; "dev"; "staging"; "test"].

Definition fallbackStep (domain : string) (st : State) (ind : string) : State :=
  let sub := ind +:+ "." +:+ domain in
  if negb (seen_get (snd st) sub)
  then addSubdomain sub "indicator-fallback" st
  else st.

Definition fallbackIndicators (domain : string) (result : AmassResult.t)
    (seen : gmap string bool) (debug : bool) : State :=
  fold_left (fallbackStep domain) indicators (result, seen).

Definition amassArgs (domain : string) (passive : bool) (timeout : Z)
    (wordlist : string) : list string :=
  let args := ["enum"; "-d"; domain] in
  let args :=
    if passive then args ++ ["-passive"]
    else
      let args := args ++ ["-active"; "-brute"] in
      if negb (eqb wordlist "") then args ++ ["-w"; wordlist] else args in
  args ++ ["-timeout"; itoa timeout].

Definition runAmassOnce (domain : string) (passive : bool) (timeout : Z)
    (wordlist : string) (result : AmassResult.t) (seen : gmap string bool)
    (debug : bool) : Env.M State :=
  let args := amassArgs domain passive timeout wordlist in
  r ← Env.call (Env.Run (Some timeout) "amass" args "");
  let output := Env.out r in
  let result :=
    if debug then
      let d := Debug result in
      set_Debug
        (DebugInfo.mk
           (DebugInfo.RawOutput d ++
              ["Command: amass " +:+ Join args " ";
               "Output:" +:+ String "010" output])
           (DebugInfo.ParseErrors d)
           (int_add (DebugInfo.TotalLines d) (len (Split output "010")))
           (DebugInfo.ParsedLines d))
        result
    else result in
  match Env.err r with
  | Some e =>
    if (String.length output =? 0)%nat then
      let result :=
        if debug then
          let d := Debug result in
          set_Debug
            (DebugInfo.mk (DebugInfo.RawOutput d) (DebugInfo.ParseErrors d ++ [e])
               (DebugInfo.TotalLines d) (DebugInfo.ParsedLines d))
            result
        else result in
      Env.ret (result, seen)
    else
      let result := set_Command (Join args " ") result in
      Env.ret (parseAmassOut output domain "amass" result seen debug)
  | None =>
    let result := set_Command (Join args " ") result in
    Env.ret (parseAmassOut output domain "amass" result seen debug)
  end.

Definition performDebugAmass (domain : string) (passive : bool) (timeout : Z)
    (wordlist : string) (debug : bool) : Env.M AmassResult.t :=
  now ← Env.call Env.Now;
  let result :=
    AmassResult.mk domain [] ∅ 0 (Env.out now) "" "passive" "running"
      (DebugInfo.mk [] [] 0 0) in
  let seen : gmap string bool := ∅ in
  let result := if negb passive then set_Mode "active" result else result in
  '(result, seen) ← runAmassOnce domain passive timeout wordlist result seen debug;
  let '(result, seen) :=
    if (len (Subdomains result) =? 0)
    then fallbackIndicators domain result seen debug
    else (result, seen) in
  let result := set_Status "completed" result in
  let result := set_Count (len (Subdomains result)) result in
  Env.ret result.

End Amass.

(* ===================================================================== *)
(** * The part of Go's [time] that [parseDate] uses *)
(* ===================================================================== *)

Module GoTime.
Import GoStrings.

(** A layout as [time.Parse] reads it: literal text and standard chunks. *)
Inductive chunk :=
| Lit (text : string)
| StdLongYear      (* "2006" *)
| StdZeroMonth     (* "01" *)
| StdZeroDay       (* "02" *)
| StdMonth         (* "Jan" *)
| StdHour          (* "15" *)
| StdZeroMinute    (* "04" *)
| StdZeroSecond.   (* "05" *)

Record Layout := { layout_text : string; layout_chunks : list chunk }.

(** The civil date and time of a parsed [time.Time] in UTC. *)
Record Time := {
  year : Z; month : Z; day : Z; hour : Z; minute : Z; second : Z
}.

Definition digit (c : ascii) : option Z :=
  let n := byte c in
  if ((48 <=? n) && (n <=? 57))%N then Some (Z.of_N n - 48) else None.

Definition isDigit (s : string) : bool :=
  match s with
  | String c _ => match digit c with Some _ => true | None => false end
  | EmptyString => false
  end.

(** [getnum]: one or two digits, exactly two when [fixed]. *)
Definition getnum (s : string) (fixed : bool) : option (Z * string) :=
  match s with
  | String c0 s1 =>
    match digit c0 with
    | None => None
    | Some d0 =>
      match s1 with
      | String c1 s2 =>
        match digit c1 with
        | Some d1 => Some (d0 * 10 + d1, s2)
        | None => if fixed then None else Some (d0, s1)
        end
      | EmptyString => if fixed then None else Some (d0, s1)
      end
    end
  | EmptyString => None
  end.

(** The four digits of a long year. *)
Definition getyear (s : string) : option (Z * string) :=
  match s with
  | String c0 (String c1 (String c2 (String c3 rest))) =>
    match digit c0, digit c1, digit c2, digit c3 with
    | Some d0, Some d1, Some d2, Some d3 =>
      Some (d0 * 1000 + d1 * 100 + d2 * 10 + d3, rest)
    | _, _, _, _ => None
    end
  | _ => None
  end.

Definition shortMonthNames : list string :=
  ["Jan"; "Feb"; "Mar"; "Apr"; "May"; "Jun";
   "Jul"; "Aug"; "Sep"; "Oct"; "Nov"; "Dec"].

(** [lookup(shortMonthNames, value)]: the first name that is a prefix of
    [value] up to the case of ASCII letters; the month number from 1. *)
Fixpoint lookupGo (tab : list string) (i : Z) (val : string) : option (Z * string) :=
  match tab with
  | [] => None
  | v :: tab' =>
    let n := String.length v in
    if (n <=? String.length val)%nat
       && eqb (asciiLower (String.substring 0 n val)) (asciiLower v)
    then Some (i, String.substring n (String.length val - n) val)
    else lookupGo tab' (i + 1) val
  end.

Fixpoint cutspace (s : string) : string :=
  match s with
  | String c s' => if Ascii.eqb c " " then cutspace s' else s
  | EmptyString => EmptyString
  end.

(** [skip(value, prefix)]: a run of spaces in the layout matches any run
    of spaces in the value, every other byte matches itself.  [cut] is
    set while the run of spaces of the prefix is being dropped. *)
Fixpoint skipGo (cut : bool) (prefix value : string) : option string :=
  match prefix with
  | EmptyString => Some value
  | String p prefix' =>
    if Ascii.eqb p " " then
      if cut then skipGo true prefix' value
      else
        match value with
        | String v _ =>
          if Ascii.eqb v " " then skipGo true prefix' (cutspace value) else None
        | EmptyString => skipGo true prefix' value
        end
    else
      match value with
      | String v value' =>
        if Ascii.eqb v p then skipGo false prefix' value' else None
      | EmptyString => None
      end
  end.

Definition skip (value prefix : string) : option string := skipGo false prefix value.

Fixpoint dropDigits (s : string) : string :=
  match s with
  | String c s' => match digit c with Some _ => dropDigits s' | None => s end
  | EmptyString => EmptyString
  end.

(** A fractional second in the value where the layout has none is read
    and dropped. *)
Definition skipFraction (value : string) : string :=
  match value with
  | String c rest =>
    if (Ascii.eqb c "." || Ascii.eqb c ",") && isDigit rest
    then dropDigits rest
    else value
  | EmptyString => value
  end.

Definition between (lo hi x : Z) : bool := (lo <=? x) && (x <=? hi).

(** The fields read so far; month and day start at -1. *)
Definition parseChunk (c : chunk) (st : Time * string) : option (Time * string) :=
  let '(t, value) := st in
  match c with
  | Lit p => v ← skip value p; Some (t, v)
  | StdLongYear =>
    '(y, v) ← getyear value;
    Some (Build_Time y (month t) (day t) (hour t) (minute t) (second t), v)
  | StdMonth =>
    '(m, v) ← lookupGo shortMonthNames 1 value;
    Some (Build_Time (year t) m (day t) (hour t) (minute t) (second t), v)
  | StdZeroMonth =>
    '(m, v) ← getnum value true;
    if between 1 12 m
    then Some (Build_Time (year t) m (day t) (hour t) (minute t) (second t), v)
    else None
  | StdZeroDay =>
    '(d, v) ← getnum value true;
    Some (Build_Time (year t) (month t) d (hour t) (minute t) (second t), v)
  | StdHour =>
    '(h, v) ← getnum value false;
    if between 0 23 h
    then Some (Build_Time (year t) (month t) (day t) h (minute t) (second t), v)
    else None
  | StdZeroMinute =>
    '(m, v) ← getnum value true;
    if between 0 59 m
    then Some (Build_Time (year t) (month t) (day t) (hour t) m (second t), v)
    else None
  | StdZeroSecond =>
    '(s, v) ← getnum value true;
    if between 0 59 s
    then Some (Build_Time (year t) (month t) (day t) (hour t) (minute t) s,
               skipFraction v)
    else None
  end.

Fixpoint parseChunks (cs : list chunk) (st : Time * string) : option (Time * string) :=
  match cs with
  | [] => Some st
  | c :: cs' => st' ← parseChunk c st; parseChunks cs' st'
  end.

Definition isLeap (y : Z) : bool :=
  (y mod 4 =? 0) && (negb (y mod 100 =? 0) || (y mod 400 =? 0)).

Definition daysIn (m y : Z) : Z :=
  if m =? 2 then (if isLeap y then 29 else 28)
  else if (m =? 4) || (m =? 6) || (m =? 9) || (m =? 11) then 30
  else 31.

(** [time.Parse(layout, value)]; [None] is an error. *)
Definition Parse (layout : Layout) (value : string) : option Time :=
  '(t, rest) ← parseChunks (layout_chunks layout) (Build_Time 0 (-1) (-1) 0 0 0, value);
  if negb (eqb rest "") then None
  else
    let m := if month t <? 0 then 1 else month t in
    let d := if day t <? 0 then 1 else day t in
    if (d <? 1) || (daysIn m (year t) <? d) then None
    else Some (Build_Time (year t) m d (hour t) (minute t) (second t)).

Definition digitChar (d : Z) : ascii := ascii_of_N (Z.to_N (48 + d mod 10)).

(** [appendInt(b, x, width)] for [x >= 0] and widths 2 and 4. *)
Definition pad2 (x : Z) : string :=
  if x <? 100
  then String (digitChar (x / 10)) (String (digitChar x) EmptyString)
  else GoInt.itoa x.

Definition pad4 (x : Z) : string :=
  if x <? 10000
  then String (digitChar (x / 1000)) (String (digitChar (x / 100))
         (String (digitChar (x / 10)) (String (digitChar x) EmptyString)))
  else GoInt.itoa x.

(** [t.Format("2006-01-02")]. *)
Definition FormatDate (t : Time) : string :=
  pad4 (year t) +:+ "-" +:+ pad2 (month t) +:+ "-" +:+ pad2 (day t).

End GoTime.

(* ===================================================================== *)
(** * recon/whois.go *)
(* ===================================================================== *)

Module Contact.
Record t := mk {
  Name : string; Organization : string; Email : string;
  Phone : string; Country : string
}.
Definition zero : t := mk "" "" "" "" "".
End Contact.

Module Contacts.
Record t := mk { Registrant : Contact.t; Admin : Contact.t; Tech : Contact.t }.
Definition zero : t := mk Contact.zero Contact.zero Contact.zero.
End Contacts.

Module WhoisResult.
Record t := mk {
  Domain : string;
  Registrar : string;
  CreationDate : string;
  ExpirationDate : string;
  UpdatedDate : string;
  NameServers : list string;
  Status : list string;
  Contacts : Contacts.t;
  DNSSEC : string;
  Raw : string
}.

Definition set_Registrar (v : string) (r : t) : t :=
  mk (Domain r) v (CreationDate r) (ExpirationDate r) (UpdatedDate r)
     (NameServers r) (Status r) (Contacts r) (DNSSEC r) (Raw r).
Definition set_CreationDate (v : string) (r : t) : t :=
  mk (Domain r) (Registrar r) v (ExpirationDate r) (UpdatedDate r)
     (NameServers r) (Status r) (Contacts r) (DNSSEC r) (Raw r).
Definition set_ExpirationDate (v : string) (r : t) : t :=
  mk (Domain r) (Registrar r) (CreationDate r) v (UpdatedDate r)
     (NameServers r) (Status r) (Contacts r) (DNSSEC r) (Raw r).
Definition set_UpdatedDate (v : string) (r : t) : t :=
  mk (Domain r) (Registrar r) (CreationDate r) (ExpirationDate r) v
     (NameServers r) (Status r) (Contacts r) (DNSSEC r) (Raw r).
Definition set_NameServers (v : list string) (r : t) : t :=
  mk (Domain r) (Registrar r) (CreationDate r) (ExpirationDate r) (UpdatedDate r)
     v (Status r) (Contacts r) (DNSSEC r) (Raw r).
Definition set_Status (v : list string) (r : t) : t :=
  mk (Domain r) (Registrar r) (CreationDate r) (ExpirationDate r) (UpdatedDate r)
     (NameServers r) v (Contacts r) (DNSSEC r) (Raw r).
Definition set_DNSSEC (v : string) (r : t) : t :=
  mk (Domain r) (Registrar r) (CreationDate r) (ExpirationDate r) (UpdatedDate r)
     (NameServers r) (Status r) (Contacts r) v (Raw r).
Definition set_Raw (v : string) (r : t) : t :=
  mk (Domain r) (Registrar r) (CreationDate r) (ExpirationDate r) (UpdatedDate r)
     (NameServers r) (Status r) (Contacts r) (DNSSEC r) v.
End WhoisResult.

Module Whois.
Import GoStrings GoTime.
Import WhoisResult.

Definition anyOf (key : string) (needles : list string) : bool :=
  existsb (Contains key) needles.

Definition contains (slice : list string) (item : string) : bool :=
  existsb (λ s, eqb s item) slice.

(** The layouts of [parseDate] with their chunks. *)
Definition formats : list Layout :=
  [ Build_Layout "2006-01-02T15:04:05Z"
      [StdLongYear; Lit "-"; StdZeroMonth; Lit "-"; StdZeroDay; Lit "T";
       StdHour; Lit ":"; StdZeroMinute; Lit ":"; StdZeroSecond; Lit "Z"];
    Build_Layout "2006-01-02 15:04:05"
      [StdLongYear; Lit "-"; StdZeroMonth; Lit "-"; StdZeroDay; Lit " ";
       StdHour; Lit ":"; StdZeroMinute; Lit ":"; StdZeroSecond];
    Build_Layout "2006-01-02"
      [StdLongYear; Lit "-"; StdZeroMonth; Lit "-"; StdZeroDay];
    Build_Layout "02-Jan-2006"
      [StdZeroDay; Lit "-"; StdMonth; Lit "-"; StdLongYear];
    Build_Layout "2006.01.02"
      [StdLongYear; Lit "."; StdZeroMonth; Lit "."; StdZeroDay];
    Build_Layout "02/01/2006"
      [StdZeroDay; Lit "/"; StdZeroMonth; Lit "/"; StdLongYear] ].

Fixpoint parseDateWith (fs : list Layout) (dateStr : string) : string :=
  match fs with
  | [] => dateStr
  | f :: fs' =>
    match Parse f dateStr with
    | Some t => FormatDate t
    | None => parseDateWith fs' dateStr
    end
  end.

Definition parseDate (dateStr : string) : string := parseDateWith formats dateStr.

Section Lines.
Context `{UnicodeTables}.

(** The [switch] of the parse loop: the first case whose condition
    holds runs, the others are not looked at. *)
Definition classify (key value : string) (result : t) : t :=
  if Contains key "registrar" && eqb (Registrar result) "" then
    set_Registrar value result
  else if anyOf key ["created"; "creation date"; "registered on"]
          && eqb (CreationDate result) "" then
    set_CreationDate (parseDate value) result
  else if anyOf key ["expires"; "expiration"; "expiry date"; "registry expiry"]
          && eqb (ExpirationDate result) "" then
    set_ExpirationDate (parseDate value) result
  else if anyOf key ["updated"; "modified"; "changed"]
          && eqb (UpdatedDate result) "" then
    set_UpdatedDate (parseDate value) result
  else if anyOf key ["name server"; "nserver"]
          && negb (EqualFold value "unsigned") then
    if negb (contains (NameServers result) value)
    then set_NameServers (NameServers result ++ [value]) result
    else result
  else if HasPrefix key "status" && negb (contains (Status result) value) then
    set_Status (Status result ++ [value]) result
  else if anyOf key ["dnssec"; "ds data"] then
    set_DNSSEC value result
  else result.

(** The body of the parse loop, for one line of the raw response.
    [parts] has two elements whenever the line has a colon. *)
Definition parseLine (result : t) (text : string) : t :=
  let line := TrimSpace text in
  if eqb line "" || negb (Contains line ":") then result
  else
    let parts := SplitN2 line ":" in
    let key := TrimSpace (ToLower (nth 0 parts "")) in
    let value := TrimSpace (nth 1 parts "") in
    if eqb value "" then result
    else classify key value result.

Definition parseRaw (raw : string) (result : t) : t :=
  fold_left parseLine (Split raw "010") result.
End Lines.

Definition servers : list string :=
  ["whois.verisign-grs.com:43"; "whois.iana.org:43";
   "whois.nic.ru:43"; "whois.godaddy.com:43"].

Fixpoint fallbackWhoisFrom (srvs : list string) (domain : string)
    : Env.M (string * option string) :=
  match srvs with
  | [] => mret ("", Some "all whois servers unreachable")
  | srv :: srvs' =>
    r ← Env.call (Env.TcpWhois domain srv);
    if negb (Env.failed r) && negb (eqb (TrimSpace (Env.out r)) "")
    then mret (Env.out r, None)
    else fallbackWhoisFrom srvs' domain
  end.

Definition fallbackWhois (domain : string) : Env.M (string * option string) :=
  fallbackWhoisFrom servers domain.

Definition performWhoisLookup `{UnicodeTables} (domain : string) (debug : bool)
    : Env.M WhoisResult.t :=
  let result := WhoisResult.mk domain "" "" "" "" [] [] Contacts.zero "" "" in
  r ← Env.call (Env.WhoisLib domain);
  raw ← (if Env.failed r || eqb (TrimSpace (Env.out r)) ""
         then fb ← fallbackWhois domain; mret (fst fb)
         else mret (Env.out r));
  let result := if debug then set_Raw raw result else result in
  if eqb (TrimSpace raw) "" then
    mret (set_Raw "empty response from all whois sources" result)
  else
    mret (parseRaw raw result).

End Whois.

(* ===================================================================== *)
(** * recon/recon.go (subdomain.go) *)
(* ===================================================================== *)

Module Filepath.
Import GoStrings.

(** [filepath.Join(dir, name)] for a clean [dir], as [ioutil.TempDir]
    returns it, and a plain file name. *)
Definition Join (dir name : string) : string := dir +:+ "/" +:+ name.

Fixpoint dropThroughSlash (r : string) : option string :=
  match r with
  | EmptyString => None
  | String c r' => if Ascii.eqb c "/" then Some r' else dropThroughSlash r'
  end.

(** [filepath.Dir(path)] for a clean [path]. *)
Definition Dir (path : string) : string :=
  match dropThroughSlash (String.rev path) with
  | None => "."
  | Some EmptyString => "/"
  | Some r => String.rev r
  end.
End Filepath.

Module SubdomainResult.
Record t := mk { Domain : string; Subdomains : slice string; Count : Z }.
Definition set_Subdomains (v : slice string) (r : t) : t := mk (Domain r) v (Count r).
Definition set_Count (v : Z) (r : t) : t := mk (Domain r) (Subdomains r) v.
End SubdomainResult.

Module Recon.
Import GoStrings GoInt.
Import SubdomainResult.

Definition dq : string := String "034" EmptyString.
Definition nl : string := String "010" EmptyString.

Definition isValidDomain (d : string) : bool :=
  if (String.length d =? 0)%nat || (253 <? String.length d)%nat then false
  else if ContainsAny d (String " " (String "009" EmptyString)) then false
  else if negb (Contains d ".") then false
  else if HasPrefix d "." || HasSuffix d "." || HasPrefix d "-" || HasSuffix d "-"
  then false
  else true.

Definition debugPrint (debug : bool) (title text : string) : Env.M unit :=
  if debug
  then _ ← Env.call (Env.Stderr ("----- " +:+ title +:+ " -----" +:+ nl +:+ text
                                    +:+ nl +:+ "----- end -----" +:+ nl));
       mret tt
  else mret tt.

Definition runHarvester (domain outFile : string) (passive debug : bool) : Env.M unit :=
  let src :=
    if passive
    then "crtsh,bing,duckduckgo,yahoo,virustotal,shodan,netlas,hunter,dnsdumpster"
    else "all" in
  let pipe :=
    "theHarvester -d " +:+ domain +:+ " -b " +:+ src +:+ " -f " +:+ outFile
    +:+ " 2>&1 | grep -E '[a-z0-9.-]+\." +:+ domain +:+ "$' | sort -u > " +:+ outFile in
  r ← Env.call (Env.Run None "bash" ["-o"; "pipefail"; "-c"; pipe] "");
  debugPrint debug "harvester output" (Env.out r).

Definition runReconNg (domain outFile : string) (passive debug : bool) : Env.M unit :=
  let scriptPath := Filepath.Join (Filepath.Dir outFile) "recon.script" in
  let script :=
    "add domains " +:+ domain +:+ nl +:+
    "use recon/domains-hosts/hackertarget" +:+ nl +:+
    "run" +:+ nl +:+
    "use recon/domains-hosts/crtsh" +:+ nl +:+
    "run" +:+ nl +:+
    "use recon/domains-hosts/virustotal" +:+ nl +:+
    "run" +:+ nl +:+
    "show hosts" +:+ nl +:+
    "exit" in
  let script :=
    if passive then ReplaceAll script "use recon/domains-hosts/brute" "" else script in
  _ ← Env.call (Env.WriteFile scriptPath script);
  let pipe :=
    "recon-ng -r " +:+ scriptPath +:+ " -w " +:+ domain
    +:+ "_temp 2>&1 | grep -E '^[[:space:]]*[a-z0-9.-]+\." +:+ domain
    +:+ "$' | sed 's/^[[:space:]]*//' | sort -u > " +:+ outFile in
  r ← Env.call (Env.Run None "bash" ["-o"; "pipefail"; "-c"; pipe] "");
  debugPrint debug "recon-ng output" (Env.out r).

Definition runCrtSh (domain outFile : string) (debug : bool) : Env.M unit :=
  let pipe :=
    "curl -s " +:+ dq +:+ "https://crt.sh/?q=%." +:+ domain +:+ "&output=json" +:+ dq
    +:+ " 2>&1 | jq -r '.[].name_value' 2>/dev/null | sed 's/\*\.//' | grep -E '[a-z0-9.-]+\."
    +:+ domain +:+ "$' | sort -u > " +:+ outFile in
  r ← Env.call (Env.Run None "bash" ["-c"; pipe] "");
  debugPrint debug "crt.sh output" (Env.out r).

Definition curlStatus (host : string) : Env.M string :=
  r ← Env.call (Env.Run None "curl"
         ["-o"; "/dev/null"; "-w"; "%{http_code}"; "-s"; "-I"; "-m"; "3";
          "https://" +:+ host] "");
  mret (TrimSpace (Env.out r)).

Definition wantCodes (codes : string) : gmap string bool :=
  fold_left (λ want c, <[TrimSpace c := true]> want) (Split codes ",") ∅.

(** The body of the loop of [probeWithCurl]; [alive] starts [nil]. *)
Definition curlStep (want : gmap string bool) (alive : slice string) (h : string)
    : Env.M (slice string) :=
  if negb (isValidDomain h) then mret alive
  else
    code ← curlStatus h;
    if default false (want !! code)
    then mret (Slice.append alive h)
    else mret alive.

Definition probeWithCurl (hosts : list string) (codes : string) (debug : bool)
    : Env.M (slice string) :=
  let want := wantCodes codes in
  Env.foldM (curlStep want) hosts SNil.

(** The body of the loop over the lines of the httpx output. *)
Definition httpxLine (alive : slice string) (text : string) : slice string :=
  let line := TrimSpace text in
  if eqb line "" then alive
  else
    match Fields line with
    | u0 :: _ => Slice.append alive (TrimSuffix (TrimPrefix u0 "https://") "/")
    | [] => alive
    end.

(** [hosts] is read only through [len] and [range]: its elements. *)
Definition probeWithHttpx (hosts : list string) (codes : string) (debug : bool)
    : Env.M (slice string) :=
  if (len hosts =? 0) then mret (SList [])
  else
    lp ← Env.call (Env.LookPath "httpx");
    if Env.failed lp then probeWithCurl hosts codes debug
    else
      r ← Env.call (Env.Run None "httpx"
             ["-sc"; "-mc"; codes; "-silent"; "-timeout"; "3"; "-retry"; "2"]
             (Join hosts nl));
      _ ← debugPrint debug "httpx raw" (Env.out r);
      let alive := fold_left httpxLine (Split (Env.out r) "010") SNil in
      if (Slice.len alive =? 0) && (0 <? len hosts)
      then probeWithCurl hosts codes debug
      else mret alive.

(** The three goroutines run external pipelines that write to three
    different files and are joined by [wg.Wait()] before anything reads
    them; they appear in the history in the order they are launched. *)
Definition performSubdomainEnum (domain : string) (passive : bool) (codes : string)
    (debug : bool) : Env.M SubdomainResult.t :=
  let res := SubdomainResult.mk domain (SList []) 0 in
  lp ← Env.call (Env.LookPath "theHarvester");
  if Env.failed lp
  then mret (set_Subdomains (SList ["error: theHarvester not in PATH"]) res)
  else
    lp ← Env.call (Env.LookPath "recon-ng");
    if Env.failed lp
    then mret (set_Subdomains (SList ["error: recon-ng not in PATH"]) res)
    else
      td ← Env.call (Env.TempDir "recon-");
      match Env.err td with
      | Some e => mret (set_Subdomains (SList ["temp-dir-error: " +:+ e]) res)
      | None =>
        let tmpDir := Env.out td in
        let harvFile := Filepath.Join tmpDir "harvester.txt" in
        let reconFile := Filepath.Join tmpDir "reconng.txt" in
        let crtFile := Filepath.Join tmpDir "crtsh.txt" in
        let finalFile := Filepath.Join tmpDir "final.txt" in
        _ ← runHarvester domain harvFile passive debug;
        _ ← runReconNg domain reconFile passive debug;
        _ ← runCrtSh domain crtFile debug;
        let mergeCmd :=
          "sort -u " +:+ harvFile +:+ " " +:+ reconFile +:+ " " +:+ crtFile
          +:+ " > " +:+ finalFile +:+ " 2>/dev/null" in
        _ ← Env.call (Env.Run None "bash" ["-c"; mergeCmd] "");
        raw ← Env.call (Env.ReadFile finalFile);
        _ ← debugPrint debug "merged raw" (Env.out raw);
        let lines := Split (TrimSpace (Env.out raw)) "010" in
        alive ← probeWithHttpx lines codes debug;
        let res := set_Subdomains alive res in
        let res := set_Count (Slice.len (Subdomains res)) res in
        _ ← Env.call (Env.RemoveAll tmpDir);
        mret res
      end.

End Recon.

(* ===================================================================== *)
(** * enumeration: path brute force with ffuf *)
(* ===================================================================== *)

Module PathItem.
Record t := mk { Name : string }.
End PathItem.

Module FuffResult.
Record t := mk { Domain : string; Subdomains : slice PathItem.t; Count : Z }.
Definition set_Subdomains (v : slice PathItem.t) (r : t) : t := mk (Domain r) v (Count r).
Definition set_Count (v : Z) (r : t) : t := mk (Domain r) (Subdomains r) v.
End FuffResult.

Module Enumeration.
Import GoStrings GoInt.
Import FuffResult.

Definition ffufLine (hits : slice string) (text : string) : slice string :=
  let line := TrimSpace text in
  if eqb line "" || HasPrefix line "input" then hits
  else
    match Split line "," with
    | p0 :: _ => if negb (Contains p0 "error:") then Slice.append hits p0 else hits
    | [] => hits
    end.

Definition parseFfufCSVLines (csv : string) : slice string :=
  fold_left ffufLine (Bufio.ScanLines csv) SNil.

Definition performPathBrute (domain wordlist : string) : Env.M FuffResult.t :=
  let res := FuffResult.mk domain SNil 0 in
  lp ← Env.call (Env.LookPath "ffuf");
  if Env.failed lp
  then mret (set_Subdomains
               (SList [PathItem.mk "error: ffuf not installed or not in PATH"]) res)
  else
    abs ← Env.call (Env.Abs wordlist);
    let absWordlist := Env.out abs in
    let args :=
      ["-u"; "https://" +:+ domain +:+ "/FUZZ";
       "-w"; absWordlist;
       "-mc"; "200,204,301,302,307,401,403";
       "-s";
       "-of"; "csv"] in
    r ← Env.call (Env.Run None "ffuf" args "");
    if Env.failed r
    then mret (set_Subdomains (SList []) res)
    else
      let paths := parseFfufCSVLines (Env.out r) in
      let items := map PathItem.mk (Slice.elems paths) in
      let res := set_Subdomains (SList items) res in
      let res := set_Count (len items) res in
      mret res.

End Enumeration.

(** Unicode tables without case pairs outside ASCII, for running the code
    on ASCII text, where they are not consulted. *)
Definition asciiTables : UnicodeTables :=
  {| unicode_ToLower := GoStrings.asciiLower;
     unicode_EqualFold := λ s t,
       GoStrings.eqb (GoStrings.asciiLower s) (GoStrings.asciiLower t) |}.

(* ===================================================================== *)
(** * Vocabulary of the properties *)
(* ===================================================================== *)

(** The sum of the counters of a [map[string]int]. *)
Definition sumSources (m : gmap string Z) : Z :=
  map_fold (λ _ v acc, v + acc) 0 m.

Module AmassSpec.
Import GoInt Amass AmassResult.

(** The identities of the entities of a result, in order. *)
Definition names (r : AmassResult.t) : list string :=
  SubdomainInfo.Name <$> Subdomains r.

(** A result and a [seen] map that go together: no name twice, [seen]
    marks exactly the names of the result, and as long as the number of
    entities is an [int] the counters are not negative and add up to it. *)
Record consistent (st : State) : Prop := {
  names_nodup : NoDup (names st.1);
  seen_names : ∀ n, seen_get st.2 n = true ↔ n ∈ names st.1;
  counts_sum :
    len (Subdomains st.1) ≤ max_int →
    sumSources (Sources st.1) = len (Subdomains st.1)
    ∧ map_Forall (λ _ v, 0 ≤ v) (Sources st.1)
}.

(** The struct literal and the mode that [performDebugAmass] starts from. *)
Definition initial (domain : string) (passive : bool) (now : string) : AmassResult.t :=
  let result :=
    AmassResult.mk domain [] ∅ 0 now "" "passive" "running"
      (DebugInfo.mk [] [] 0 0) in
  if negb passive then set_Mode "active" result else result.

(** The state of [performDebugAmass] after its call of [runAmassOnce]:
    what the discovery chain found. *)
Definition discovery (domain : string) (passive : bool) (timeout : Z)
    (wordlist : string) (debug : bool) : Env.M State :=
  now ← Env.call Env.Now;
  runAmassOnce domain passive timeout wordlist
    (initial domain passive (Env.out now)) ∅ debug.

(** Lines 102 to 108 of [performDebugAmass]: the fallback when the
    discovery found nothing, then the final status and count. *)
Definition finish (st : State) (domain : string) (debug : bool) : AmassResult.t :=
  let st' :=
    if (len (Subdomains st.1) =? 0)
    then fallbackIndicators domain st.1 st.2 debug
    else st in
  set_Count (len (Subdomains st'.1)) (set_Status "completed" st'.1).

(** A scanned line that the parser takes whole as one candidate name:
    nothing to trim, not blank, not the sentinel, a proper subdomain of
    [domain]. *)
Definition candidateLine (domain name : string) : bool :=
  GoStrings.eqb (GoStrings.TrimSpace name) name
  && negb (GoStrings.eqb name "")
  && negb (GoStrings.Contains name "The enumeration has finished")
  && GoStrings.HasSuffix name ("." +:+ domain)
  && negb (GoStrings.eqb name domain).

(** Every entity carries the one provenance [source]. *)
Definition labelled (source : string) (st : State) : Prop :=
  Forall (λ e, SubdomainInfo.Sources e = [source]) (Subdomains st.1).

(** The scenario of two sources: A reports api.example.com, then B
    reports www.example.com and api.example.com. *)
Definition emptyResult : AmassResult.t :=
  AmassResult.mk "example.com" [] ∅ 0 "" "" "passive" "running"
    (DebugInfo.mk [] [] 0 0).

Definition afterA : State :=
  parseAmassOut "api.example.com" "example.com" "A" emptyResult ∅ false.

Definition afterAB : State :=
  parseAmassOut ("www.example.com" +:+ String "010" "api.example.com")
    "example.com" "B" afterA.1 afterA.2 false.

(** The one call [runAmassOnce] makes. *)
Definition amassCall (domain : string) (passive : bool) (timeout : Z)
    (wordlist : string) : Env.Call :=
  Env.Run (Some timeout) "amass" (amassArgs domain passive timeout wordlist) "".

(** The entity the fallback makes of an indicator. *)
Definition indicatorEntity (domain ind : string) : SubdomainInfo.t :=
  SubdomainInfo.mk (ind +:+ "." +:+ domain) [] ["indicator-fallback"].

End AmassSpec.

(** ** Worlds for running the code on examples *)

Module Worlds.

Definition ok (text : string) : Env.Reply := Env.Build_Reply text None.
Definition fails (text : string) : Env.Reply := Env.Build_Reply "" (Some text).

Definition line (text : string) : string := text +:+ String "010" EmptyString.

(** amass is installed and prints two lines, one of them with noise. *)
Definition amassFinds : Env.World := λ _ c,
  match c with
  | Env.Run _ "amass" _ _ =>
    ok (line "www.example.com" +:+ line "[dns] (mail.example.com) resolved")
  | Env.Now => ok "2025-01-01T00:00:00Z"
  | _ => fails "unexpected call"
  end.

(** amass is not installed. *)
Definition amassAbsent : Env.World := λ _ c,
  match c with
  | Env.Now => ok "2025-01-01T00:00:00Z"
  | _ => fails "exec: amass: executable file not found in $PATH"
  end.

(** httpx is not installed and curl reports [status] for every host. *)
Definition curlOnly (status : string) : Env.World := λ _ c,
  match c with
  | Env.Run _ "curl" _ _ => ok status
  | _ => fails "not found"
  end.

(** httpx is installed and prints nothing; curl reports [status]. *)
Definition httpxSilent (status : string) : Env.World := λ _ c,
  match c with
  | Env.LookPath "httpx" => ok "/usr/bin/httpx"
  | Env.Run _ "httpx" _ _ => ok ""
  | Env.Run _ "curl" _ _ => ok status
  | _ => fails "not found"
  end.

(** Every tool is installed; the pipelines leave the merged file empty. *)
Definition nothingFound : Env.World := λ _ c,
  match c with
  | Env.TempDir _ => ok "/tmp/recon-1"
  | Env.ReadFile _ => ok ""
  | Env.Run _ "curl" _ _ => ok "000"
  | Env.Run _ _ _ _ => ok ""
  | Env.Now => ok "2025-01-01T00:00:00Z"
  | _ => ok ""
  end.

(** The WHOIS library answers with [raw]. *)
Definition whoisAnswers (raw : string) : Env.World := λ _ c,
  match c with
  | Env.WhoisLib _ => ok raw
  | _ => fails "unreachable"
  end.

(** No WHOIS source answers. *)
Definition whoisSilent : Env.World := λ _ _, fails "unreachable".

(** Everything is installed but theHarvester. *)
Definition harvesterMissing : Env.World := λ t c,
  match c with
  | Env.LookPath "theHarvester" => fails "executable file not found in $PATH"
  | _ => nothingFound t c
  end.

(** ffuf is installed and exits with an error. *)
Definition ffufFails : Env.World := λ _ c,
  match c with
  | Env.Run _ "ffuf" _ _ => fails "exit status 1"
  | _ => ok "/usr/bin/ffuf"
  end.

(** The library and the first server are unreachable, the second server
    answers. *)
Definition ianaAnswers : Env.World := λ _ c,
  match c with
  | Env.TcpWhois _ "whois.iana.org:43" => ok "refer: whois.verisign-grs.com"
  | _ => fails "unreachable"
  end.

End Worlds.

Module ReconSpec.
Import Recon.

(** The call [curlStatus] makes for a host. *)
Definition curlCall (host : string) : Env.Call :=
  Env.Run None "curl"
    ["-o"; "/dev/null"; "-w"; "%{http_code}"; "-s"; "-I"; "-m"; "3";
     "https://" +:+ host] "".

(** A call that hands [domain] to an external command, in an argument or
    inside a shell pipeline. *)
Definition dispatches (domain : string) (c : Env.Call) : Prop :=
  match c with
  | Env.Run _ _ args _ => Exists (λ a, GoStrings.Contains a domain = true) args
  | _ => False
  end.

(** The tools and the scratch directory [performSubdomainEnum] checks for
    are there. *)
Definition toolsPresent (w : Env.World) : Prop :=
  ∀ t, Env.err (w t (Env.LookPath "theHarvester")) = None
       ∧ Env.err (w t (Env.LookPath "recon-ng")) = None
       ∧ Env.err (w t (Env.TempDir "recon-")) = None.

(** A computation that only adds calls to the history. *)
Definition extends {A} (m : Env.M A) : Prop :=
  ∀ w t, ∃ ext, (m w t).2 = t ++ ext.

End ReconSpec.

Module WhoisSpec.
Import GoStrings GoTime Whois WhoisResult.

Definition isDigitByte (c : ascii) : bool :=
  match digit c with Some _ => true | None => false end.

(** The date-only shape: four digits, a dash, two digits, a dash, two
    digits. *)
Definition isYMD (s : string) : bool :=
  match s with
  | String y1 (String y2 (String y3 (String y4 (String d1
      (String m1 (String m2 (String d2 (String a1 (String a2 EmptyString))))))))) =>
    isDigitByte y1 && isDigitByte y2 && isDigitByte y3 && isDigitByte y4
    && Ascii.eqb d1 "-"
    && isDigitByte m1 && isDigitByte m2
    && Ascii.eqb d2 "-"
    && isDigitByte a1 && isDigitByte a2
  | _ => false
  end.

(** The fields while parsing: a year of four digits, a month that is not
    yet read or in range. *)
Definition partial (t : Time) : Prop :=
  0 ≤ year t < 10000 ∧ (month t = -1 ∨ 1 ≤ month t ≤ 12).




(** The value of a line: the text after its first colon, trimmed. *)
Definition valueOf (text : string) : string :=
  TrimSpace (nth 1 (SplitN2 (TrimSpace text) ":") "").

(** The key of a line: the text before its first colon, in lower case,
    trimmed. *)
Definition keyOf `{UnicodeTables} (text : string) : string :=
  TrimSpace (ToLower (nth 0 (SplitN2 (TrimSpace text) ":") "")).

(** A line that has a colon and a value after it. *)
Definition hasField (text : string) : bool :=
  negb (eqb (TrimSpace text) "") && Contains (TrimSpace text) ":"
  && negb (eqb (valueOf text) "").

(** The field a key and value are classified to, given what the result
    already holds: the first of the classifications, in this order, that
    applies.  A scalar field takes a line only while it is empty; the name
    servers do not take the value "unsigned" in any case of letters; the
    status list does not take a value it has. *)
Inductive field :=
| FRegistrar | FCreationDate | FExpirationDate | FUpdatedDate
| FNameServer | FStatus | FDnssec | FNone.

Definition selects `{UnicodeTables} (key value : string) (r : WhoisResult.t) : field :=
  if Contains key "registrar" && eqb (Registrar r) "" then FRegistrar
  else if (Contains key "created" || Contains key "creation date"
           || Contains key "registered on") && eqb (CreationDate r) ""
  then FCreationDate
  else if (Contains key "expires" || Contains key "expiration"
           || Contains key "expiry date" || Contains key "registry expiry")
          && eqb (ExpirationDate r) ""
  then FExpirationDate
  else if (Contains key "updated" || Contains key "modified" || Contains key "changed")
          && eqb (UpdatedDate r) ""
  then FUpdatedDate
  else if (Contains key "name server" || Contains key "nserver")
          && negb (EqualFold value "unsigned")
  then FNameServer
  else if HasPrefix key "status" && negb (bool_decide (value ∈ Status r)) then FStatus
  else if Contains key "dnssec" || Contains key "ds data" then FDnssec
  else FNone.

(** A date field after parsing [lines]: the value it had, or the
    normalised value of one of the lines that has a value. *)
Definition normalisedFrom (lines : list string) (old new : string) : Prop :=
  new = old
  ∨ ∃ text, text ∈ lines ∧ hasField text = true ∧ new = parseDate (valueOf text).

(** A source that gives nothing to parse: an error or blank text. *)
Definition silent (r : Env.Reply) : bool :=
  Env.failed r || eqb (TrimSpace (Env.out r)) "".

(** The result [performWhoisLookup] starts from. *)
Definition blank (domain : string) : WhoisResult.t :=
  WhoisResult.mk domain "" "" "" "" [] [] Contacts.zero "" "".

End WhoisSpec.


(** ** Vocabulary of the further properties *)

Module AmassNames.
Import GoStrings Amass AmassResult.

(** The test the parser applies to a line or a token: a proper subdomain
    of [domain]. *)
Definition isSub (domain name : string) : bool :=
  HasSuffix name ("." +:+ domain) && negb (eqb name domain).

(** The names one scanned line offers for merging, in order: the line
    itself when it passes the test, else its stripped tokens that pass. *)
Definition lineNames (domain text : string) : list string :=
  let line := TrimSpace text in
  if eqb line "" || Contains line "The enumeration has finished" then []
  else if isSub domain line then [line]
  else filter (λ n, isSub domain n = true)
         ((λ tok, Trim tok "[](){}<>") <$> Fields line).

(** The step both loops of the parser make for a name that passed their
    test. *)
Definition offer (source : string) (st : State) (n : string) : State :=
  if seen_get st.2 n then st else addSubdomain n source st.

(** An entity as the aggregation makes them: a proper subdomain of the
    target, without addresses, with one provenance label of the two. *)
Definition wellFormed (domain : string) (e : SubdomainInfo.t) : Prop :=
  isSub domain (SubdomainInfo.Name e) = true
  ∧ SubdomainInfo.IPs e = []
  ∧ (SubdomainInfo.Sources e = ["amass"]
     ∨ SubdomainInfo.Sources e = ["indicator-fallback"]).

(** Two results that agree on everything but the three fields of the
    debug trace that record raw text. *)
Definition sameFindings (r r' : AmassResult.t) : Prop :=
  Domain r = Domain r' ∧ Subdomains r = Subdomains r' ∧ Sources r = Sources r'
  ∧ Count r = Count r' ∧ Timestamp r = Timestamp r' ∧ Command r = Command r'
  ∧ Mode r = Mode r' ∧ Status r = Status r'
  ∧ DebugInfo.ParsedLines (Debug r) = DebugInfo.ParsedLines (Debug r').

(** States that agree on the findings and on [seen]. *)
Definition alike (st st' : State) : Prop := sameFindings st.1 st'.1 ∧ st.2 = st'.2.

(** The fields of the debug trace that record raw text. *)
Definition rawTrace (r : AmassResult.t) : list string * list string * Z :=
  (DebugInfo.RawOutput (Debug r), DebugInfo.ParseErrors (Debug r),
   DebugInfo.TotalLines (Debug r)).

(** What the merge is about: the entities, the counters and [seen]. *)
Definition core (st : State) : list SubdomainInfo.t * gmap string Z * gmap string bool :=
  (Subdomains st.1, Sources st.1, st.2).

(** The merge in the words of the specification, as the code does it: a
    name that has not been seen is appended with the provenance [[source]],
    marked and counted for [source]; a name that has been seen changes
    nothing, and the entity that is there keeps the provenance it has. *)
Definition Merged : Type := list SubdomainInfo.t * gmap string Z * gmap string bool.

Definition mergeOne (source : string) (m : Merged) (name : string) : Merged :=
  let '(entities, counters, seen) := m in
  if seen_get seen name then m
  else (entities ++ [SubdomainInfo.mk name [] [source]],
        incr counters source,
        <[name := true]> seen).

Definition mergeNames (source : string) (names : list string) (m : Merged) : Merged :=
  fold_left (mergeOne source) names m.

(** The names an output offers for merging: those of its scanned lines, in
    order. *)
Definition outputNames (domain output : string) : list string :=
  concat (lineNames domain <$> Bufio.ScanLines output).

End AmassNames.

Module ReconMore.
Import GoStrings Recon.

(** A computation that only adds calls to the history, all of them
    satisfying [P]. *)
Definition emits {A} (P : Env.Call → Prop) (m : Env.M A) : Prop :=
  ∀ w t, ∃ ext, (m w t).2 = t ++ ext ∧ Forall (λ cr, P cr.1) ext.

(** A computation whose last call is [c], after calls that satisfy [P]. *)
Definition endsWith {A} (P : Env.Call → Prop) (c : Env.Call) (m : Env.M A) : Prop :=
  ∀ w t, ∃ ext r, (m w t).2 = t ++ ext ++ [(c, r)] ∧ Forall (λ cr, P cr.1) ext.

(** The calls [performSubdomainEnum] can make, with or without the ones
    that write to standard error and remove the scratch directory. *)
Definition allowed (stderr cleanup : bool) (c : Env.Call) : Prop :=
  match c with
  | Env.LookPath _ | Env.TempDir _ | Env.WriteFile _ _ | Env.ReadFile _ => True
  | Env.Run None name _ _ => name = "bash" ∨ name = "httpx" ∨ name = "curl"
  | Env.Stderr _ => stderr = true
  | Env.RemoveAll _ => cleanup = true
  | _ => False
  end.

(** The call of the batch probe. *)
Definition httpxCall (hosts : list string) (codes : string) : Env.Call :=
  Env.Run None "httpx"
    ["-sc"; "-mc"; codes; "-silent"; "-timeout"; "3"; "-retry"; "2"]
    (Join hosts nl).

(** What the batch probe reported: the first field of every line that is
    not blank, without "https://" in front and "/" behind. *)
Definition batchAlive (output : string) : slice string :=
  fold_left httpxLine (Split output "010") SNil.

(** The history when [performSubdomainEnum] asks for its scratch
    directory, and the directory it is given. *)
Definition lookups (w : Env.World) : Env.Trace :=
  let t1 := [(Env.LookPath "theHarvester", w [] (Env.LookPath "theHarvester"))] in
  t1 ++ [(Env.LookPath "recon-ng", w t1 (Env.LookPath "recon-ng"))].

Definition scratchDir (w : Env.World) : string :=
  Env.out (w (lookups w) (Env.TempDir "recon-")).

End ReconMore.

Module EnumerationSpec.

(** ffuf is installed and prints a CSV with a header, two hits and a line
    that reports an error. *)
Definition ffufFinds : Env.World := λ _ c,
  match c with
  | Env.Run _ "ffuf" _ _ =>
    Worlds.ok (Worlds.line "input,position,status_code"
               +:+ Worlds.line "admin,1,200"
               +:+ Worlds.line "error: timeout,2,0"
               +:+ Worlds.line "login,3,301")
  | _ => Worlds.ok "/usr/bin/ffuf"
  end.

End EnumerationSpec.
(* ===================================================================== *)
(** * Properties *)
(* ===================================================================== *)

(** ** General facts *)

Lemma fold_left_preserves {A B} (P : A → Prop) (f : A → B → A) (l : list B) (a : A) :
  (∀ a x, P a → P (f a x)) → P a → P (fold_left f l a).
Proof.
  intros Hstep. revert a. induction l as [|x l IH]; intros a Ha; simpl; auto.
Qed.

Lemma append_String c s t : String c s +:+ t = String c (s +:+ t).
Proof. reflexivity. Qed.

Lemma append_Empty t : "" +:+ t = t.
Proof. reflexivity. Qed.

Lemma eqb_true s t : GoStrings.eqb s t = true ↔ s = t.
Proof. unfold GoStrings.eqb. apply bool_decide_eq_true. Qed.

Lemma eqb_false s t : GoStrings.eqb s t = false ↔ s ≠ t.
Proof. unfold GoStrings.eqb. apply bool_decide_eq_false. Qed.

Lemma wrap_small z : GoInt.min_int ≤ z ≤ GoInt.max_int → GoInt.wrap z = z.
Proof.
  unfold GoInt.wrap, GoInt.min_int, GoInt.max_int. intros Hz.
  rewrite Z.mod_small; lia.
Qed.

Lemma sumSources_empty : sumSources ∅ = 0.
Proof. apply map_fold_empty. Qed.

Lemma sumSources_insert_fresh (m : gmap string Z) k v :
  m !! k = None → sumSources (<[k := v]> m) = v + sumSources m.
Proof.
  intros Hk. unfold sumSources.
  rewrite map_fold_insert_L; [done | intros; lia | done].
Qed.

Lemma sumSources_insert (m : gmap string Z) k v :
  sumSources (<[k := v]> m) = v + sumSources m - default 0 (m !! k).
Proof.
  destruct (m !! k) as [v0|] eqn:Hk; simpl.
  - rewrite <- insert_delete_eq.
    rewrite sumSources_insert_fresh by apply lookup_delete_eq.
    unfold sumSources.
    rewrite (map_fold_delete_L _ _ k v0 m); [lia | intros; lia | done].
  - rewrite sumSources_insert_fresh by done. lia.
Qed.

Lemma sumSources_lookup_le (m : gmap string Z) k v :
  map_Forall (λ _ x, 0 ≤ x) m → m !! k = Some v → v ≤ sumSources m.
Proof.
  unfold sumSources. revert k v.
  induction m as [|i x m Hi Hfold IH] using map_first_key_ind; intros k v Hall Hk.
  - by rewrite lookup_empty in Hk.
  - rewrite map_fold_insert_first_key by done.
    apply map_Forall_insert in Hall as [Hx Hall]; [|done].
    assert (0 ≤ map_fold (λ (_ : string) v0 acc, v0 + acc) 0 m) as Hnn.
    { clear -Hall. induction m as [|j y m Hj Hf IHm] using map_first_key_ind.
      - by rewrite map_fold_empty.
      - rewrite map_fold_insert_first_key by done.
        apply map_Forall_insert in Hall as [Hy Hall]; [|done].
        specialize (IHm Hall). lia. }
    destruct (decide (i = k)) as [->|Hne].
    + rewrite lookup_insert_eq in Hk. simplify_eq. lia.
    + rewrite lookup_insert_ne in Hk by done.
      specialize (IH k v Hall Hk). lia.
Qed.

(** ** Running computations in the world *)

Lemma run_bind {A B} (m : Env.M A) (k : A → Env.M B) w t :
  (m ≫= k) w t = k (m w t).1 w (m w t).2.
Proof. unfold mbind, M_bind, Env.bind. by destruct (m w t). Qed.

Lemma run_call c w t : Env.call c w t = (w t c, t ++ [(c, w t c)]).
Proof. reflexivity. Qed.

Lemma run_ret {A} (a : A) w t : (mret a : Env.M A) w t = (a, t).
Proof. reflexivity. Qed.

Lemma foldM_cons {A B} (f : B → A → Env.M B) x l b w t :
  Env.foldM f (x :: l) b w t = Env.foldM f l (f b x w t).1 w (f b x w t).2.
Proof. cbn [Env.foldM]. unfold Env.bind. by destruct (f b x w t). Qed.

(** ** amass.go: the result and the [seen] map stay consistent *)

Module AmassFacts.
Import GoStrings GoInt Amass AmassResult AmassSpec.

#[local] Arguments fallbackIndicators : simpl never.
#[local] Arguments parseAmassOut : simpl never.
#[local] Arguments amassArgs : simpl never.

Lemma len_app_one {A} (l : list A) (x : A) : len (l ++ [x]) = len l + 1.
Proof. unfold len. rewrite length_app. simpl. lia. Qed.

Lemma len_nonneg {A} (l : list A) : 0 ≤ len l.
Proof. unfold len. lia. Qed.

Lemma seen_get_insert seen k n :
  seen_get (<[k := true]> seen) n = true ↔ n = k ∨ seen_get seen n = true.
Proof.
  unfold seen_get. destruct (decide (k = n)) as [->|Hne].
  - rewrite lookup_insert_eq. simpl. tauto.
  - rewrite lookup_insert_ne by done. split; [tauto|]. intros [?|?]; congruence.
Qed.

Lemma incr_no_wrap (m : gmap string Z) k :
  map_Forall (λ _ v, 0 ≤ v) m → sumSources m + 1 ≤ max_int →
  incr m k = <[k := default 0 (m !! k) + 1]> m.
Proof.
  intros Hall Hsum. unfold incr, int_add. f_equal.
  apply wrap_small. unfold min_int.
  destruct (m !! k) as [v|] eqn:Hk; simpl.
  - pose proof (sumSources_lookup_le m k v Hall Hk).
    specialize (Hall k v Hk). simpl in Hall. unfold max_int in *. lia.
  - unfold max_int. lia.
Qed.

Lemma addSubdomain_consistent name source st :
  seen_get st.2 name = false → consistent st → consistent (addSubdomain name source st).
Proof.
  destruct st as [r seen]. simpl. intros Hfresh [Hnd Hseen Hsum]. simpl in *.
  assert (name ∉ names r) as Hnotin.
  { intros Hin. apply Hseen in Hin. congruence. }
  split; simpl.
  - unfold names. simpl. rewrite fmap_app. simpl.
    apply NoDup_app. split; [exact Hnd|]. split.
    + intros x Hx Hx'. apply list_elem_of_singleton in Hx'. subst. by apply Hnotin.
    + apply NoDup_singleton.
  - intros n. rewrite seen_get_insert. unfold names. simpl.
    rewrite fmap_app. simpl. rewrite elem_of_app, list_elem_of_singleton.
    rewrite Hseen. unfold names. tauto.
  - rewrite len_app_one. intros Hlen.
    destruct Hsum as [Hs Hall]; [lia|].
    rewrite incr_no_wrap by (first [exact Hall | lia]).
    split.
    + rewrite sumSources_insert. lia.
    + apply map_Forall_insert_2; [|exact Hall].
      destruct (Sources r !! source) as [v|] eqn:Hk; simpl; [|lia].
      specialize (Hall source v Hk). simpl in Hall. lia.
Qed.

Lemma consistent_ext r r' seen :
  Subdomains r' = Subdomains r → Sources r' = Sources r →
  consistent (r, seen) → consistent (r', seen).
Proof.
  intros Hs Hc [Hnd Hseen Hsum]. simpl in *.
  split; simpl; unfold names in *; rewrite ?Hs, ?Hc; auto.
Qed.

Lemma incrParsedLines_consistent st : consistent st → consistent (incrParsedLines st).
Proof. destruct st as [r seen]. simpl. by apply consistent_ext. Qed.

Lemma parseToken_consistent domain source st tok :
  consistent st → consistent (parseToken domain source st tok).
Proof.
  intros Hc. unfold parseToken.
  destruct (HasSuffix _ _ && _ && negb (seen_get st.2 _)) eqn:Hcond; [|done].
  apply addSubdomain_consistent; [|done].
  apply andb_true_iff in Hcond as [_ Hcond]. by apply negb_true_iff.
Qed.

Lemma parseLine_consistent domain source st text :
  consistent st → consistent (parseLine domain source st text).
Proof.
  intros Hc. unfold parseLine.
  destruct (eqb _ "" || _); [done|].
  apply incrParsedLines_consistent in Hc.
  destruct (HasSuffix _ _ && _).
  - destruct (negb (seen_get _ _)) eqn:Hs; [|done].
    apply addSubdomain_consistent; [|done]. by apply negb_true_iff.
  - apply fold_left_preserves; [|done].
    intros. by apply parseToken_consistent.
Qed.

Lemma parseAmassOut_consistent output domain source result seen debug :
  consistent (result, seen) →
  consistent (parseAmassOut output domain source result seen debug).
Proof.
  intros Hc. unfold parseAmassOut.
  apply fold_left_preserves; [|done].
  intros. by apply parseLine_consistent.
Qed.

Lemma fallbackIndicators_consistent domain result seen debug :
  consistent (result, seen) →
  consistent (fallbackIndicators domain result seen debug).
Proof.
  intros Hc. unfold fallbackIndicators.
  apply fold_left_preserves; [|done].
  intros st ind Hst. unfold fallbackStep.
  destruct (negb (seen_get _ _)) eqn:Hs; [|done].
  apply addSubdomain_consistent; [|done]. by apply negb_true_iff.
Qed.

Lemma runAmassOnce_consistent domain passive timeout wordlist result seen debug w t :
  consistent (result, seen) →
  consistent (runAmassOnce domain passive timeout wordlist result seen debug w t).1.
Proof.
  intros Hc. unfold runAmassOnce, mbind, M_bind, Env.bind, Env.call, Env.ret.
  set (r := w t _).
  destruct (Env.err r); [destruct (_ =? _)%nat|]; simpl.
  - destruct debug; [|done]. by apply (consistent_ext result).
  - apply parseAmassOut_consistent.
    destruct debug; by apply (consistent_ext result).
  - apply parseAmassOut_consistent.
    destruct debug; by apply (consistent_ext result).
Qed.

Lemma initial_consistent domain passive now :
  consistent (initial domain passive now, ∅).
Proof.
  split; simpl.
  - unfold names, initial. destruct passive; simpl; constructor.
  - intros n. unfold seen_get, names, initial. rewrite lookup_empty.
    destruct passive; simpl; split; try done; intros Hin; by apply elem_of_nil in Hin.
  - intros _. unfold initial. destruct passive; simpl;
    (split; [by rewrite sumSources_empty | apply map_Forall_empty]).
Qed.

Lemma discovery_consistent w domain passive timeout wordlist debug t :
  consistent (discovery domain passive timeout wordlist debug w t).1.
Proof.
  unfold discovery, mbind, M_bind, Env.bind at 1, Env.call. simpl.
  apply runAmassOnce_consistent, initial_consistent.
Qed.

Lemma performDebugAmass_finish w domain passive timeout wordlist debug :
  Env.result w (performDebugAmass domain passive timeout wordlist debug)
  = finish (Env.result w (discovery domain passive timeout wordlist debug)) domain debug.
Proof.
  unfold Env.result, Env.run, performDebugAmass, discovery, finish.
  unfold mbind, M_bind, Env.bind, mret, M_ret, Env.ret, Env.call. simpl.
  fold (initial domain passive (Env.out (w [] Env.Now))).
  destruct (runAmassOnce _ _ _ _ _ _ _ _ _) as [[r seen] t]. simpl.
  destruct (len (Subdomains r) =? 0);
    [destruct (fallbackIndicators _ _ _ _) as [r' seen']|]; reflexivity.
Qed.

Lemma names_finish_fields r c s :
  names (set_Count c (set_Status s r)) = names r.
Proof. reflexivity. Qed.

Lemma finish_cases st domain debug :
  consistent st →
  ∃ st', consistent st'
         ∧ Subdomains (finish st domain debug) = Subdomains st'.1
         ∧ Sources (finish st domain debug) = Sources st'.1
         ∧ Count (finish st domain debug) = len (Subdomains st'.1)
         ∧ Status (finish st domain debug) = "completed".
Proof.
  intros Hc. unfold finish.
  destruct (len (Subdomains st.1) =? 0).
  - exists (fallbackIndicators domain st.1 st.2 debug).
    split; [|done]. apply fallbackIndicators_consistent. by destruct st.
  - by exists st.
Qed.

(** C2: no entity appears twice, by name, in the entity sequence of the
    result of [performDebugAmass], whatever the outside world answers:
    the parser and the indicator fallback append a name only when [seen]
    does not have it. *)
Theorem C2_no_entity_twice w domain passive timeout wordlist debug :
  NoDup (names (Env.result w (performDebugAmass domain passive timeout wordlist debug))).
Proof.
  rewrite performDebugAmass_finish.
  destruct (finish_cases (Env.result w (discovery domain passive timeout wordlist debug))
              domain debug) as (st' & Hc & Hs & _).
  { apply discovery_consistent. }
  unfold names. rewrite Hs. apply (names_nodup _ Hc).
Qed.

(** C10: in the result of [performDebugAmass], [Count] is the length of
    [Subdomains], and the counters of [Sources] add up to that length
    (the length being an [int], as the length of every Go slice is). *)
Theorem C10_count_and_source_sum w domain passive timeout wordlist debug :
  let r := Env.result w (performDebugAmass domain passive timeout wordlist debug) in
  len (Subdomains r) ≤ max_int →
  Count r = len (Subdomains r) ∧ sumSources (Sources r) = len (Subdomains r).
Proof.
  intros r. subst r. rewrite performDebugAmass_finish.
  destruct (finish_cases (Env.result w (discovery domain passive timeout wordlist debug))
              domain debug) as (st' & Hc & Hs & Hsrc & Hcount & _).
  { apply discovery_consistent. }
  rewrite Hs, Hsrc, Hcount. intros Hlen. split; [done|].
  by apply (counts_sum _ Hc).
Qed.

(** *** The indicator fallback *)

Lemma list_ascii_append s t :
  String.list_ascii_of_string (s +:+ t)
  = (String.list_ascii_of_string s ++ String.list_ascii_of_string t)%list.
Proof. induction s as [|c s IH]; simpl; [done|]. by rewrite <- IH. Qed.

Lemma append_inj_r s1 s2 t : s1 +:+ t = s2 +:+ t → s1 = s2.
Proof.
  intros Heq. apply (f_equal String.list_ascii_of_string) in Heq.
  rewrite !list_ascii_append in Heq. apply app_inv_tail in Heq.
  rewrite <- (String.string_of_list_ascii_of_string s1),
          <- (String.string_of_list_ascii_of_string s2).
  by rewrite Heq.
Qed.

Lemma fallback_fold domain inds r seen :
  NoDup inds →
  (∀ i, i ∈ inds → seen_get seen (i +:+ "." +:+ domain) = false) →
  Subdomains (fold_left (fallbackStep domain) inds (r, seen)).1
  = Subdomains r ++ (indicatorEntity domain <$> inds).
Proof.
  revert r seen. induction inds as [|i inds IH]; intros r seen Hnd Hfresh; simpl.
  - by rewrite app_nil_r.
  - apply NoDup_cons in Hnd as [Hi Hnd].
    unfold fallbackStep at 2. simpl.
    rewrite (Hfresh i) by constructor. simpl.
    rewrite IH; [unfold set_Sources, set_Subdomains; simpl; by rewrite <- app_assoc
                | done |].
    intros j Hj.
    destruct (seen_get (<[i +:+ "." +:+ domain := true]> seen) (j +:+ "." +:+ domain))
      eqn:Hs; [|done].
    apply seen_get_insert in Hs as [Hs|Hs].
    + apply append_inj_r in Hs. subst. contradiction.
    + rewrite Hfresh in Hs; [done | by constructor].
Qed.

Lemma indicators_nodup : NoDup indicators.
Proof. apply (bool_decide_unpack _). by vm_compute. Qed.

Lemma fallbackIndicators_fresh domain r seen debug :
  consistent (r, seen) → Subdomains r = [] →
  Subdomains (fallbackIndicators domain r seen debug).1
  = indicatorEntity domain <$> indicators.
Proof.
  intros Hc Hnil. unfold fallbackIndicators.
  rewrite fallback_fold; [by rewrite Hnil | apply indicators_nodup |].
  intros i _.
  destruct (seen_get seen (i +:+ "." +:+ domain)) eqn:Hs; [|done].
  apply (seen_names _ Hc) in Hs. simpl in Hs. unfold names in Hs.
  rewrite Hnil in Hs. by apply elem_of_nil in Hs.
Qed.

Lemma addSubdomain_labelled name source st :
  labelled source st → labelled source (addSubdomain name source st).
Proof.
  destruct st as [r seen]. unfold labelled. simpl. intros Hl.
  apply Forall_app. split; [done|]. by repeat constructor.
Qed.

Lemma parseAmassOut_labelled output domain source result seen debug :
  labelled source (result, seen) →
  labelled source (parseAmassOut output domain source result seen debug).
Proof.
  intros Hl. unfold parseAmassOut.
  apply fold_left_preserves; [|done].
  intros st text Hst. unfold parseLine.
  destruct (eqb _ "" || _); [done|].
  assert (labelled source (incrParsedLines st)) as Hst' by by destruct st.
  destruct (HasSuffix _ _ && _).
  - destruct (negb _); [|done]. by apply addSubdomain_labelled.
  - apply fold_left_preserves; [|done].
    intros st2 tok Hst2. unfold parseToken.
    destruct (_ && _); [|done]. by apply addSubdomain_labelled.
Qed.

Lemma discovery_labelled w domain passive timeout wordlist debug :
  labelled "amass" (Env.result w (discovery domain passive timeout wordlist debug)).
Proof.
  unfold Env.result, Env.run, discovery, runAmassOnce.
  unfold mbind, M_bind, Env.bind, Env.call, Env.ret. simpl.
  set (r := w [_] _).
  assert (∀ r0, Subdomains r0 = [] → ∀ seen, labelled "amass" (r0, seen)) as Hnil.
  { intros r0 H0 seen. unfold labelled. simpl. rewrite H0. constructor. }
  destruct (Env.err r); [destruct (_ =? _)%nat|]; simpl.
  - apply Hnil. by destruct debug, passive.
  - apply parseAmassOut_labelled, Hnil. by destruct debug, passive.
  - apply parseAmassOut_labelled, Hnil. by destruct debug, passive.
Qed.

Lemma finish_nil st domain debug :
  Subdomains st.1 = [] →
  Subdomains (finish st domain debug)
  = Subdomains (fallbackIndicators domain st.1 st.2 debug).1.
Proof. intros Hnil. unfold finish. rewrite Hnil. reflexivity. Qed.

Lemma finish_found st domain debug :
  Subdomains st.1 ≠ [] → Subdomains (finish st domain debug) = Subdomains st.1.
Proof.
  intros Hne. unfold finish.
  destruct (Subdomains st.1) as [|e es] eqn:Hs; [done|].
  replace (len (e :: es) =? 0) with false
    by (symmetry; apply Z.eqb_neq; unfold len; simpl; lia).
  cbn [Subdomains set_Count set_Status]. by rewrite Hs.
Qed.

(** C6: what [performDebugAmass] returns depends on what its discovery
    (the run of amass) found.  Every entity the discovery finds carries
    the provenance ["amass"] and no other.  When the discovery found
    entities, they are the result.  When it found none, the result is the
    twelve names www, mail, api, admin, portal, secure, cdn, static, app,
    dev, staging and test, each followed by "." and the target, in that
    order, each with the provenance ["indicator-fallback"] and no other:
    a guess can be told from a finding by its label. *)
Theorem C6_indicator_fallback w domain passive timeout wordlist debug :
  let found := Env.result w (discovery domain passive timeout wordlist debug) in
  let r := Env.result w (performDebugAmass domain passive timeout wordlist debug) in
  Forall (λ e, SubdomainInfo.Sources e = ["amass"]) (Subdomains found.1)
  ∧ (Subdomains found.1 ≠ [] →
       Subdomains r = Subdomains found.1
       ∧ Forall (λ e, SubdomainInfo.Sources e = ["amass"]) (Subdomains r))
  ∧ (Subdomains found.1 = [] →
       Subdomains r
       = (λ prefix, SubdomainInfo.mk (prefix +:+ "." +:+ domain) [] ["indicator-fallback"])
           <$> ["www"; "mail"; "api"; "admin"; "portal"; "secure"; "cdn"; "static";
                "app"; "dev"; "staging"; "test"]).
Proof.
  intros found r. subst r.
  pose proof (discovery_labelled w domain passive timeout wordlist debug) as Hlab.
  fold found in Hlab. unfold labelled in Hlab.
  split; [done|]. split.
  - intros Hne. rewrite performDebugAmass_finish. fold found.
    rewrite finish_found by done. by split.
  - intros Hnil. rewrite performDebugAmass_finish. fold found.
    rewrite finish_nil by done.
    rewrite fallbackIndicators_fresh; [reflexivity| |done].
    pose proof (discovery_consistent w domain passive timeout wordlist debug []) as Hc.
    change (consistent found) in Hc. by destruct found.
Qed.

(** *** Merging one candidate *)

(** What is already in the result stays where it is and as it is: the
    parser only appends, and what it appends carries [source]. *)
Lemma parseAmassOut_extends output domain source result seen debug :
  ∃ new,
    Subdomains (parseAmassOut output domain source result seen debug).1
    = Subdomains result ++ new
    ∧ Forall (λ e, SubdomainInfo.Sources e = [source]) new.
Proof.
  unfold parseAmassOut.
  set (P := λ st : State, ∃ new, Subdomains st.1 = Subdomains result ++ new
              ∧ Forall (λ e, SubdomainInfo.Sources e = [source]) new).
  assert (∀ name st, P st → P (addSubdomain name source st)) as Hadd.
  { intros name [r s] (new & Hn & Hf). simpl in Hn.
    exists (new ++ [SubdomainInfo.mk name [] [source]]). split.
    - simpl. rewrite Hn. by rewrite <- app_assoc.
    - apply Forall_app. split; [done|]. by repeat constructor. }
  change (P (fold_left (parseLine domain source) (Bufio.ScanLines output) (result, seen))).
  apply fold_left_preserves.
  - intros st text Hst. unfold parseLine.
    destruct (eqb _ "" || _); [done|].
    assert (P (incrParsedLines st)) as Hst' by by destruct st.
    destruct (HasSuffix _ _ && _).
    + destruct (negb _); [|done]. by apply Hadd.
    + apply fold_left_preserves; [|done].
      intros st2 tok Hst2. unfold parseToken.
      destruct (_ && _); [|done]. by apply Hadd.
  - exists []. simpl. split; [by rewrite app_nil_r | constructor].
Qed.

(** Merging one line that is a candidate name as a whole.  A name [seen]
    does not have is appended at the end of the entity sequence with the
    provenance [[source]], marked in [seen] and counted for [source].  A
    name [seen] has is not appended again, and the entity sequence, the
    counters and [seen] stay as they are. *)
Lemma merge_one_candidate domain source name result seen :
  candidateLine domain name = true →
  let st := parseLine domain source (result, seen) name in
  if seen_get seen name
  then Subdomains st.1 = Subdomains result
       ∧ Sources st.1 = Sources result
       ∧ st.2 = seen
  else Subdomains st.1 = Subdomains result ++ [SubdomainInfo.mk name [] [source]]
       ∧ Sources st.1 = incr (Sources result) source
       ∧ st.2 = <[name := true]> seen.
Proof.
  unfold candidateLine. intros Hc.
  repeat (apply andb_true_iff in Hc as [Hc ?]).
  apply eqb_true in Hc.
  unfold parseLine. rewrite Hc.
  destruct (eqb name "") eqn:He; [done|].
  destruct (Contains name _) eqn:Hs; [done|].
  destruct (HasSuffix name _) eqn:Hx; [|done].
  destruct (eqb name domain) eqn:Hd; [done|].
  cbn [orb andb negb incrParsedLines snd].
  destruct (seen_get seen name); cbn [negb]; done.
Qed.

(** *** The calls of the driver *)

Lemma runAmassOnce_trace domain passive timeout wordlist result seen debug w t :
  (runAmassOnce domain passive timeout wordlist result seen debug w t).2
  = t ++ [(amassCall domain passive timeout wordlist,
           w t (amassCall domain passive timeout wordlist))].
Proof.
  unfold runAmassOnce. rewrite run_bind, run_call. cbn [fst snd].
  fold (amassCall domain passive timeout wordlist).
  destruct (Env.err _); [destruct (_ =? _)%nat|]; reflexivity.
Qed.

Lemma performDebugAmass_run w t domain passive timeout wordlist debug :
  performDebugAmass domain passive timeout wordlist debug w t
  = (finish (discovery domain passive timeout wordlist debug w t).1 domain debug,
     (discovery domain passive timeout wordlist debug w t).2).
Proof.
  unfold performDebugAmass, discovery, finish.
  rewrite !run_bind, !run_call. cbn [fst snd].
  fold (initial domain passive (Env.out (w t Env.Now))).
  destruct (runAmassOnce _ _ _ _ _ _ _ _ _) as [[r seen] t']. cbn [fst snd].
  destruct (len (Subdomains r) =? 0);
    [destruct (fallbackIndicators _ _ _ _) as [r' seen']|]; reflexivity.
Qed.

(** [performDebugAmass] reads the clock and runs amass once on its target,
    whatever the target is. *)
Lemma performDebugAmass_calls w domain passive timeout wordlist debug :
  Env.calls w (performDebugAmass domain passive timeout wordlist debug)
  = [Env.Now; amassCall domain passive timeout wordlist].
Proof.
  unfold Env.calls, Env.run. rewrite performDebugAmass_run. cbn [snd].
  unfold discovery. rewrite run_bind, run_call. cbn [fst snd].
  rewrite runAmassOnce_trace. reflexivity.
Qed.

(** The result is complete and never empty. *)
Lemma performDebugAmass_completed w domain passive timeout wordlist debug :
  let r := Env.result w (performDebugAmass domain passive timeout wordlist debug) in
  Status r = "completed" ∧ Subdomains r ≠ [].
Proof.
  cbv zeta. rewrite performDebugAmass_finish.
  set (found := Env.result w (discovery domain passive timeout wordlist debug)).
  split; [reflexivity|].
  destruct (Subdomains found.1) as [|e es] eqn:Hfound.
  - rewrite finish_nil by done.
    rewrite fallbackIndicators_fresh; [done| |done].
    pose proof (discovery_consistent w domain passive timeout wordlist debug []) as Hc.
    change (consistent found) in Hc. by destruct found.
  - unfold finish. rewrite Hfound.
    replace (len (e :: es) =? 0) with false
      by (symmetry; apply Z.eqb_neq; unfold len; simpl; lia).
    cbn [Subdomains set_Count set_Status]. by rewrite Hfound.
Qed.

End AmassFacts.

Lemma C10_count_and_source_sum_witness :
  let r := Env.result Worlds.amassFinds
             (Amass.performDebugAmass "example.com" true 300 "" false) in
  AmassResult.Count r = 2 ∧ sumSources (AmassResult.Sources r) = 2.
Proof.
  apply (AmassFacts.C10_count_and_source_sum Worlds.amassFinds "example.com" true 300 "" false).
  vm_compute. discriminate.
Defined.

Lemma C6_indicator_fallback_witness :
  AmassResult.Subdomains
    (Env.result Worlds.amassAbsent
       (Amass.performDebugAmass "example.com" true 300 "" false))
  = (λ name, SubdomainInfo.mk name [] ["indicator-fallback"])
      <$> ["www.example.com"; "mail.example.com"; "api.example.com";
           "admin.example.com"; "portal.example.com"; "secure.example.com";
           "cdn.example.com"; "static.example.com"; "app.example.com";
           "dev.example.com"; "staging.example.com"; "test.example.com"]
  ∧ AmassResult.Subdomains
      (Env.result Worlds.amassFinds
         (Amass.performDebugAmass "example.com" true 300 "" false))
    = [SubdomainInfo.mk "www.example.com" [] ["amass"];
       SubdomainInfo.mk "mail.example.com" [] ["amass"]].
Proof.
  destruct (AmassFacts.C6_indicator_fallback Worlds.amassAbsent "example.com" true 300 "" false)
    as (_ & _ & Hnone).
  destruct (AmassFacts.C6_indicator_fallback Worlds.amassFinds "example.com" true 300 "" false)
    as (_ & Hfound & _).
  split.
  - apply Hnone. vm_compute. reflexivity.
  - destruct Hfound as [Hres _]; [by vm_compute|].
    etrans; [exact Hres|]. vm_compute. reflexivity.
Defined.

Lemma merge_one_candidate_witness :
  let st := Amass.parseLine "example.com" "B"
              (AmassSpec.afterA.1, <["www.example.com" := true]> AmassSpec.afterA.2)
              "api.example.com" in
  AmassResult.Subdomains st.1 = AmassResult.Subdomains AmassSpec.afterA.1
  ∧ AmassResult.Sources st.1 = AmassResult.Sources AmassSpec.afterA.1
  ∧ st.2 = <["www.example.com" := true]> AmassSpec.afterA.2.
Proof.
  assert (AmassSpec.candidateLine "example.com" "api.example.com" = true) as Hc
    by (vm_compute; reflexivity).
  exact (AmassFacts.merge_one_candidate "example.com" "B" "api.example.com"
           AmassSpec.afterA.1 (<["www.example.com" := true]> AmassSpec.afterA.2) Hc).
Defined.

(** C1, as stated, fails on the scenario of the specification: after A
    reported api.example.com and B reported www.example.com and
    api.example.com, the entities are api.example.com and www.example.com,
    two of them, but api.example.com has the provenance [A] alone. *)
Lemma C1_provenance_not_merged :
  AmassSpec.names AmassSpec.afterAB.1 = ["api.example.com"; "www.example.com"]
  ∧ (SubdomainInfo.Sources <$> AmassResult.Subdomains AmassSpec.afterAB.1) = [["A"]; ["B"]]
  ∧ ¬ (∀ e, e ∈ AmassResult.Subdomains AmassSpec.afterAB.1 →
            SubdomainInfo.Name e = "api.example.com" →
            "B" ∈ SubdomainInfo.Sources e).
Proof.
  split; [by vm_compute|]. split; [by vm_compute|].
  intros Hall.
  specialize (Hall (SubdomainInfo.mk "api.example.com" [] ["A"])).
  assert ("B" ∈ ["A"]) as Hin.
  { apply Hall; [|reflexivity]. vm_compute. constructor. }
  apply list_elem_of_singleton in Hin. discriminate.
Qed.

(** C9: with debug off, [performDebugAmass] still counts the parsed lines:
    for an amass that prints two lines [Debug.ParsedLines] is 2, while the
    other three fields of the trace keep their initial values. *)
Theorem C9_parsed_lines_counted_with_debug_off :
  AmassResult.Debug
    (Env.result Worlds.amassFinds
       (Amass.performDebugAmass "example.com" true 300 "" false))
  = DebugInfo.mk [] [] 0 2.
Proof. vm_compute. reflexivity. Qed.

(** ** subdomain.go: validation and the liveness filter *)

Module ReconFacts.
Import GoStrings GoInt Recon SubdomainResult ReconSpec.

Lemma curlStatus_run host w t :
  curlStatus host w t
  = (TrimSpace (Env.out (w t (curlCall host))),
     t ++ [(curlCall host, w t (curlCall host))]).
Proof. reflexivity. Qed.

Lemma curlStep_run want alive h w t :
  curlStep want alive h w t =
  if isValidDomain h
  then (if default false (want !! TrimSpace (Env.out (w t (curlCall h))))
        then Slice.append alive h else alive,
        t ++ [(curlCall h, w t (curlCall h))])
  else (alive, t).
Proof.
  unfold curlStep. destruct (isValidDomain h); cbn [negb]; [|done].
  rewrite run_bind, curlStatus_run. cbn [fst snd].
  by destruct (default false _).
Qed.

(** The filter loop keeps [alive] or yields a slice with elements, never an
    empty slice that is not [nil]; it calls curl only for hosts that pass
    [isValidDomain]. *)
Lemma curlLoop_spec want hosts alive w t :
  let res := Env.foldM (curlStep want) hosts alive w t in
  (res.1 = alive ∨ ∃ l, res.1 = SList l ∧ l ≠ [])
  ∧ ∃ hs, res.2 = t ++ hs
          ∧ Forall (λ cr, ∃ h, cr.1 = curlCall h ∧ h ∈ hosts ∧ isValidDomain h = true) hs.
Proof.
  cbv zeta. revert alive t. induction hosts as [|h hosts IH]; intros alive t.
  - simpl. split; [by left|]. exists []. split; [by rewrite app_nil_r | constructor].
  - assert (∀ hs, Forall (λ cr : Env.Call * Env.Reply,
               ∃ h0, cr.1 = curlCall h0 ∧ h0 ∈ hosts ∧ isValidDomain h0 = true) hs →
             Forall (λ cr : Env.Call * Env.Reply,
               ∃ h0, cr.1 = curlCall h0 ∧ h0 ∈ h :: hosts ∧ isValidDomain h0 = true) hs) as Hweak.
    { intros hs Hall. eapply Forall_impl; [exact Hall|].
      intros cr (h' & ? & ? & ?). exists h'. split; [done|].
      split; [by constructor | done]. }
    rewrite foldM_cons, curlStep_run.
    destruct (isValidDomain h) eqn:Hv; cbn [fst snd].
    + set (t1 := t ++ [_]).
      destruct (default false (want !! _)).
      * destruct (IH (Slice.append alive h) t1) as [Hres (hs & Ht & Hall)].
        split.
        -- right. destruct Hres as [Hres|Hres]; [|done].
           exists (Slice.elems alive ++ [h]). split; [done|].
           by destruct (Slice.elems alive).
        -- exists ((curlCall h, w t (curlCall h)) :: hs). split.
           ++ rewrite Ht. unfold t1. by rewrite <- app_assoc.
           ++ constructor; [|by apply Hweak].
              exists h. split; [done|]. split; [constructor | done].
      * destruct (IH alive t1) as [Hres (hs & Ht & Hall)].
        split; [done|].
        exists ((curlCall h, w t (curlCall h)) :: hs). split.
        -- rewrite Ht. unfold t1. by rewrite <- app_assoc.
        -- constructor; [|by apply Hweak].
           exists h. split; [done|]. split; [constructor | done].
    + destruct (IH alive t) as [Hres (hs & Ht & Hall)].
      split; [done|]. exists hs. split; [done|]. by apply Hweak.
Qed.

Lemma probeWithCurl_spec hosts codes debug w t :
  let res := probeWithCurl hosts codes debug w t in
  (res.1 = SNil ∨ ∃ l, res.1 = SList l ∧ l ≠ [])
  ∧ ∃ hs, res.2 = t ++ hs
          ∧ Forall (λ cr, ∃ h, cr.1 = curlCall h ∧ h ∈ hosts ∧ isValidDomain h = true) hs.
Proof. apply curlLoop_spec. Qed.

Lemma httpxLines_spec lines alive :
  fold_left httpxLine lines alive = alive
  ∨ ∃ l, fold_left httpxLine lines alive = SList l ∧ l ≠ [].
Proof.
  revert alive. induction lines as [|x lines IH]; intros alive; [by left|].
  cbn [fold_left]. unfold httpxLine at 2 4.
  destruct (eqb _ ""); [apply IH|].
  destruct (Fields _) as [|u0 us]; [apply IH|].
  right. destruct (IH (Slice.append alive (TrimSuffix (TrimPrefix u0 "https://") "/")))
    as [Hres|Hres]; [|done].
  rewrite Hres. eexists. split; [reflexivity|]. by destruct (Slice.elems alive).
Qed.

(** An empty candidate sequence gives the empty slice, without any call. *)
Lemma probeWithHttpx_empty codes debug w t :
  probeWithHttpx [] codes debug w t = (SList [], t).
Proof. reflexivity. Qed.

(** For candidates, the result is [nil] or has elements. *)
Lemma probeWithHttpx_candidates h hosts codes debug w t :
  let res := (probeWithHttpx (h :: hosts) codes debug w t).1 in
  res = SNil ∨ ∃ l, res = SList l ∧ l ≠ [].
Proof.
  cbv zeta. unfold probeWithHttpx.
  replace (len (h :: hosts) =? 0) with false
    by (symmetry; apply Z.eqb_neq; unfold len; simpl; lia).
  rewrite run_bind, run_call. cbn [fst snd].
  destruct (Env.failed _); [apply probeWithCurl_spec|].
  rewrite run_bind, run_call. cbn [fst snd].
  rewrite run_bind. set (t2 := (debugPrint _ _ _ _ _).2).
  destruct (httpxLines_spec (Split (Env.out (w (t ++ [(Env.LookPath "httpx",
              w t (Env.LookPath "httpx"))]) (Env.Run None "httpx"
              ["-sc"; "-mc"; codes; "-silent"; "-timeout"; "3"; "-retry"; "2"]
              (Join (h :: hosts) nl)))) "010") SNil) as [Hres|(l & Hres & Hl)];
    rewrite Hres.
  - replace (Slice.len (@SNil string) =? 0) with true by done.
    replace (0 <? len (h :: hosts)) with true
      by (symmetry; apply Z.ltb_lt; unfold len; simpl; lia).
    cbn [andb]. apply probeWithCurl_spec.
  - replace (Slice.len (SList l) =? 0) with false.
    + cbn [andb]. right. by exists l.
    + symmetry. apply Z.eqb_neq. unfold Slice.len, len. simpl.
      destruct l; [done|]. simpl. lia.
Qed.

(** *** The validator *)

Lemma ContainsAny_mid pre c post chars :
  IndexByteIn chars c = true → ContainsAny (pre +:+ String c post) chars = true.
Proof.
  intros Hc. induction pre as [|a pre IH]; cbn [String.append ContainsAny].
  - change ("" +:+ String c post) with (String c post). cbn [ContainsAny].
    by rewrite Hc.
  - rewrite append_String. cbn [ContainsAny]. rewrite IH. apply orb_true_r.
Qed.

Lemma isValidDomain_blank pre c post :
  c = " "%char ∨ c = "009"%char → isValidDomain (pre +:+ String c post) = false.
Proof.
  intros Hc. unfold isValidDomain.
  destruct (_ || _); [done|].
  rewrite ContainsAny_mid; [done|]. by destruct Hc as [-> | ->].
Qed.

Lemma prefix_append d b : String.prefix d (d +:+ b) = true.
Proof.
  induction d as [|a d IH]; [by destruct b|].
  rewrite append_String. cbn [String.prefix].
  by destruct (ascii_dec a a).
Qed.

Lemma Contains_mid a d b : Contains (a +:+ d +:+ b) d = true.
Proof.
  induction a as [|c a IH].
  - change ("" +:+ d +:+ b) with (d +:+ b).
    destruct (d +:+ b) eqn:Heq; cbn [Contains]; rewrite <- Heq, prefix_append; done.
  - rewrite append_String. cbn [Contains]. rewrite IH. apply orb_true_r.
Qed.

Lemma append_Empty_r d : d +:+ "" = d.
Proof. induction d as [|c d IH]; [done|]. rewrite append_String. by f_equal. Qed.

Lemma Contains_self d : Contains d d = true.
Proof.
  pose proof (Contains_mid "" d "") as H.
  change ("" +:+ d +:+ "") with (d +:+ "") in H.
  by rewrite append_Empty_r in H.
Qed.

(** *** Computations only add to the history *)

Lemma extends_ret {A} (a : A) : extends (mret a : Env.M A).
Proof. intros w t. exists []. by rewrite run_ret, app_nil_r. Qed.

Lemma extends_call c : extends (Env.call c).
Proof. intros w t. eexists. by rewrite run_call. Qed.

Lemma extends_bind {A B} (m : Env.M A) (k : A → Env.M B) :
  extends m → (∀ a, extends (k a)) → extends (m ≫= k).
Proof.
  intros Hm Hk w t. rewrite run_bind.
  destruct (Hm w t) as [e1 H1]. destruct (Hk (m w t).1 w (m w t).2) as [e2 H2].
  exists (e1 ++ e2). by rewrite H2, H1, app_assoc.
Qed.

Lemma extends_foldM {A B} (f : B → A → Env.M B) l b :
  (∀ b x, extends (f b x)) → extends (Env.foldM f l b).
Proof.
  intros Hf. revert b. induction l as [|x l IH]; intros b.
  - apply (extends_ret b).
  - intros w t. rewrite foldM_cons.
    destruct (Hf b x w t) as [e1 H1].
    destruct (IH (f b x w t).1 w (f b x w t).2) as [e2 H2].
    exists (e1 ++ e2). by rewrite H2, H1, app_assoc.
Qed.

Ltac extends_tac :=
  repeat first
    [ apply extends_ret
    | apply extends_call
    | apply extends_bind; [|intros ?]
    | apply extends_foldM; intros ? ?
    | match goal with
      | |- extends (if ?b then _ else _) => destruct b
      | |- extends (match ?x with _ => _ end) => destruct x
      end ].

Lemma extends_debugPrint debug title text : extends (debugPrint debug title text).
Proof. unfold debugPrint. extends_tac. Qed.

Lemma extends_probeWithCurl hosts codes debug : extends (probeWithCurl hosts codes debug).
Proof. unfold probeWithCurl, curlStep, curlStatus. extends_tac. Qed.

Lemma extends_probeWithHttpx hosts codes debug : extends (probeWithHttpx hosts codes debug).
Proof.
  unfold probeWithHttpx.
  destruct (len hosts =? 0); [apply extends_ret|].
  apply extends_bind; [apply extends_call|]. intros lp.
  destruct (Env.failed lp); [apply extends_probeWithCurl|].
  apply extends_bind; [apply extends_call|]. intros r.
  apply extends_bind; [apply extends_debugPrint|]. intros _.
  destruct (_ && _); [apply extends_probeWithCurl | apply extends_ret].
Qed.

Lemma extends_runHarvester domain outFile passive debug :
  extends (runHarvester domain outFile passive debug).
Proof. unfold runHarvester. extends_tac. apply extends_debugPrint. Qed.

Lemma extends_runReconNg domain outFile passive debug :
  extends (runReconNg domain outFile passive debug).
Proof. unfold runReconNg. extends_tac. apply extends_debugPrint. Qed.

Lemma extends_runCrtSh domain outFile debug :
  extends (runCrtSh domain outFile debug).
Proof. unfold runCrtSh. extends_tac. apply extends_debugPrint. Qed.

Lemma bind_keeps {A B} (m : Env.M A) (k : A → Env.M B) w t (P : Env.Call → Prop) :
  (∀ a, extends (k a)) → Exists P (m w t).2.*1 → Exists P ((m ≫= k) w t).2.*1.
Proof.
  intros Hk Hm. rewrite run_bind.
  destruct (Hk (m w t).1 w (m w t).2) as [e He].
  rewrite He, fmap_app. apply Exists_app. by left.
Qed.

(** With its tools there, [performSubdomainEnum] hands its target to the
    harvester pipeline without looking at it. *)
Lemma performSubdomainEnum_dispatches w domain passive codes debug :
  toolsPresent w →
  Exists (dispatches domain) (Env.calls w (performSubdomainEnum domain passive codes debug)).
Proof.
  intros Htools. unfold Env.calls, Env.run, performSubdomainEnum.
  rewrite run_bind, run_call. cbn [fst snd]. unfold Env.failed at 1.
  rewrite (proj1 (Htools _)).
  rewrite run_bind, run_call. cbn [fst snd]. unfold Env.failed at 1.
  rewrite (proj1 (proj2 (Htools _))).
  rewrite run_bind, run_call. cbn [fst snd].
  rewrite (proj2 (proj2 (Htools _))).
  apply bind_keeps.
  - intros _.
    apply extends_bind; [apply extends_runReconNg|intros _].
    apply extends_bind; [apply extends_runCrtSh|intros _].
    apply extends_bind; [apply extends_call|intros _].
    apply extends_bind; [apply extends_call|intros raw].
    apply extends_bind; [apply extends_debugPrint|intros _].
    apply extends_bind; [apply extends_probeWithHttpx|intros alive].
    apply extends_bind; [apply extends_call|intros _].
    apply extends_ret.
  - unfold runHarvester. rewrite run_bind, run_call. cbn [fst snd].
    match goal with
    | |- context [debugPrint ?d ?a ?b ?w0 ?t0] =>
      destruct (extends_debugPrint d a b w0 t0) as [e He]; rewrite He
    end.
    rewrite !fmap_app. apply Exists_app. left. apply Exists_app. right.
    apply Exists_cons_hd. cbn [fst dispatches].
    do 3 apply Exists_cons_tl. apply Exists_cons_hd.
    apply Contains_mid.
Qed.

Lemma probeWithCurl_calls w hosts codes debug c :
  c ∈ Env.calls w (probeWithCurl hosts codes debug) →
  ∃ h, c = curlCall h ∧ h ∈ hosts ∧ isValidDomain h = true.
Proof.
  unfold Env.calls, Env.run. intros Hc.
  destruct (probeWithCurl_spec hosts codes debug w []) as [_ (hs & Ht & Hall)].
  rewrite Ht in Hc. cbn [app] in Hc.
  apply list_elem_of_fmap in Hc as (cr & -> & Hcr).
  rewrite Forall_forall in Hall. by apply Hall.
Qed.

(** C3 (amended): the empty target, "-bad.com" and every string with a
    space or a tab in it fail [isValidDomain].  The validator guards the
    slow liveness path: [probeWithCurl] calls curl only for candidates that
    pass it.  The entry points do not validate their target:
    [performDebugAmass] always runs amass on it, and [performSubdomainEnum],
    when its tools and scratch directory are there, hands it to its
    pipelines. *)
Theorem C3_validation_gate :
  isValidDomain "" = false
  ∧ isValidDomain "-bad.com" = false
  ∧ (∀ pre c post, c = " "%char ∨ c = "009"%char →
       isValidDomain (pre +:+ String c post) = false)
  ∧ (∀ w hosts codes debug c,
       c ∈ Env.calls w (probeWithCurl hosts codes debug) →
       ∃ h, c = curlCall h ∧ h ∈ hosts ∧ isValidDomain h = true)
  ∧ (∀ w domain passive timeout wordlist debug,
       Env.calls w (Amass.performDebugAmass domain passive timeout wordlist debug)
       = [Env.Now; AmassSpec.amassCall domain passive timeout wordlist])
  ∧ (∀ w domain passive codes debug,
       toolsPresent w →
       Exists (dispatches domain)
         (Env.calls w (performSubdomainEnum domain passive codes debug))).
Proof.
  split; [reflexivity|]. split; [reflexivity|].
  split; [apply isValidDomain_blank|].
  split; [apply probeWithCurl_calls|].
  split; [apply AmassFacts.performDebugAmass_calls|].
  apply performSubdomainEnum_dispatches.
Qed.

(** *** Missing tools *)

Lemma performSubdomainEnum_no_harvester w domain passive codes debug :
  Env.failed (w [] (Env.LookPath "theHarvester")) = true →
  Env.run w (performSubdomainEnum domain passive codes debug)
  = (SubdomainResult.mk domain (SList ["error: theHarvester not in PATH"]) 0,
     [(Env.LookPath "theHarvester", w [] (Env.LookPath "theHarvester"))]).
Proof.
  intros Hf. unfold Env.run, performSubdomainEnum.
  rewrite run_bind, run_call. cbn [fst snd]. by rewrite Hf.
Qed.

Lemma performSubdomainEnum_no_reconng w domain passive codes debug :
  Env.failed (w [] (Env.LookPath "theHarvester")) = false →
  (∀ t, Env.failed (w t (Env.LookPath "recon-ng")) = true) →
  Env.result w (performSubdomainEnum domain passive codes debug)
  = SubdomainResult.mk domain (SList ["error: recon-ng not in PATH"]) 0
  ∧ Env.calls w (performSubdomainEnum domain passive codes debug)
    = [Env.LookPath "theHarvester"; Env.LookPath "recon-ng"].
Proof.
  intros Hh Hr. unfold Env.result, Env.calls, Env.run, performSubdomainEnum.
  rewrite run_bind, run_call. cbn [fst snd]. rewrite Hh.
  rewrite run_bind, run_call. cbn [fst snd]. rewrite Hr. by split.
Qed.

End ReconFacts.

(** C5: the liveness filter returns the empty slice for an empty candidate
    sequence, but [nil] when every candidate is filtered out: with httpx
    missing, with httpx printing nothing, and at the end of
    [performSubdomainEnum] when the pipelines found nothing. *)
Theorem C5_filtered_out_is_nil :
  Env.result (Worlds.curlOnly "000") (Recon.probeWithHttpx [] "200,301,302,403" false)
  = SList []
  ∧ Env.result (Worlds.curlOnly "000")
      (Recon.probeWithHttpx ["www.example.com"] "200,301,302,403" false)
    = SNil
  ∧ Env.result (Worlds.httpxSilent "000")
      (Recon.probeWithHttpx ["www.example.com"] "200,301,302,403" false)
    = SNil
  ∧ SubdomainResult.Subdomains
      (Env.result Worlds.nothingFound
         (Recon.performSubdomainEnum "example.com" true "200,301,302,403" false))
    = SNil.
Proof. repeat split; vm_compute; reflexivity. Qed.

Lemma C3_validation_gate_witness :
  Recon.isValidDomain "bad host.com" = false
  ∧ (∃ h, ReconSpec.curlCall "www.example.com" = ReconSpec.curlCall h
          ∧ h ∈ ["-bad.com"; "www.example.com"] ∧ Recon.isValidDomain h = true)
  ∧ Exists (ReconSpec.dispatches "-bad.com")
      (Env.calls Worlds.nothingFound
         (Recon.performSubdomainEnum "-bad.com" true "200" false)).
Proof.
  destruct ReconFacts.C3_validation_gate as (_ & _ & Hblank & Hcurl & _ & Henum).
  split; [|split].
  - apply (Hblank "bad" " "%char "host.com"). by left.
  - apply (Hcurl (Worlds.curlOnly "200") ["-bad.com"; "www.example.com"] "200" false).
    vm_compute. constructor.
  - apply Henum. intros t. by vm_compute.
Defined.

(** C3, as stated, fails: "a..b.com" passes the validator, and so does a
    name with a line feed in it; and [performDebugAmass] runs amass on the
    empty target, which the validator rejects. *)
Lemma C3_invalid_target_accepted_and_probed :
  Recon.isValidDomain "a..b.com" = true
  ∧ Recon.isValidDomain ("a" +:+ String "010" "b.com") = true
  ∧ Recon.isValidDomain "" = false
  ∧ Env.calls Worlds.amassAbsent (Amass.performDebugAmass "" true 300 "" false)
    = [Env.Now;
       Env.Run (Some 300) "amass" ["enum"; "-d"; ""; "-passive"; "-timeout"; "300"] ""].
Proof. repeat split; vm_compute; reflexivity. Qed.

(** ** whois.go: dates and fields *)

Module WhoisFacts.
Import GoStrings GoTime Whois WhoisResult WhoisSpec.

#[local] Arguments parseDate : simpl never.
#[local] Arguments formats : simpl never.

(** *** [time.Parse] yields a civil date in range *)

Lemma digit_range c d : digit c = Some d → 0 ≤ d ≤ 9.
Proof.
  unfold digit. destruct (_ && _)%N eqn:Hc; [|done]. intros [= <-].
  apply andb_true_iff in Hc as [H1 H2].
  apply N.leb_le in H1, H2. lia.
Qed.

Lemma getyear_range s y rest : getyear s = Some (y, rest) → 0 ≤ y < 10000.
Proof.
  unfold getyear. destruct s as [|c0 [|c1 [|c2 [|c3 r]]]]; try done.
  destruct (digit c0) as [d0|] eqn:H0; [|done].
  destruct (digit c1) as [d1|] eqn:H1; [|done].
  destruct (digit c2) as [d2|] eqn:H2; [|done].
  destruct (digit c3) as [d3|] eqn:H3; [|done].
  intros [= <- _].
  apply digit_range in H0, H1, H2, H3. lia.
Qed.

Lemma lookupGo_range tab i val m rest :
  lookupGo tab i val = Some (m, rest) → i ≤ m < i + Z.of_nat (length tab).
Proof.
  revert i. induction tab as [|v tab IH]; intros i; [done|].
  cbn [lookupGo length]. destruct (_ && _).
  - intros [= <- _]. lia.
  - intros Hl. apply IH in Hl. lia.
Qed.

Lemma parseChunk_partial c t v t' v' :
  parseChunk c (t, v) = Some (t', v') → partial t → partial t'.
Proof.
  unfold partial. intros Hp [Hy Hm].
  destruct c; cbn [parseChunk] in Hp.
  - destruct (skip v text); simplify_eq/=. done.
  - destruct (getyear v) as [[y r]|] eqn:Hg; simplify_eq/=.
    apply getyear_range in Hg. done.
  - destruct (getnum v true) as [[m r]|]; simplify_eq/=.
    destruct (between 1 12 m) eqn:Hb; simplify_eq/=.
    unfold between in Hb. apply andb_true_iff in Hb as [H1 H2].
    apply Z.leb_le in H1, H2. split; [done|]. right. lia.
  - destruct (getnum v true) as [[d r]|]; simplify_eq/=. done.
  - destruct (lookupGo shortMonthNames 1 v) as [[m r]|] eqn:Hl; [|done].
    apply lookupGo_range in Hl. change (Z.of_nat (length shortMonthNames)) with 12 in Hl.
    injection Hp as <- _. split; [done|]. right. simpl. lia.
  - destruct (getnum v false) as [[h r]|]; simplify_eq/=.
    destruct (between 0 23 h); simplify_eq/=. done.
  - destruct (getnum v true) as [[m r]|]; simplify_eq/=.
    destruct (between 0 59 m); simplify_eq/=. done.
  - destruct (getnum v true) as [[s r]|]; simplify_eq/=.
    destruct (between 0 59 s); simplify_eq/=. done.
Qed.

Lemma parseChunks_partial cs st st' :
  parseChunks cs st = Some st' → partial st.1 → partial st'.1.
Proof.
  revert st. induction cs as [|c cs IH]; intros [t v]; cbn [parseChunks].
  - by intros [= <-].
  - destruct (parseChunk c (t, v)) as [[t1 v1]|] eqn:Hc; [|done]. simpl.
    intros Hcs Hp. apply (IH _ Hcs). simpl. by eapply parseChunk_partial.
Qed.

Lemma daysIn_le m y : daysIn m y ≤ 31.
Proof. unfold daysIn. repeat case_match; lia. Qed.

Lemma Parse_range layout value t :
  Parse layout value = Some t →
  0 ≤ year t < 10000 ∧ 1 ≤ month t ≤ 12 ∧ 1 ≤ day t ≤ 31.
Proof.
  unfold Parse.
  destruct (parseChunks _ _) as [[t0 rest]|] eqn:Hcs; [|done]. simpl.
  apply parseChunks_partial in Hcs; [|by (split; [simpl; lia | left])].
  destruct Hcs as [Hy Hm]. simpl in Hy, Hm.
  destruct (negb _); [done|].
  destruct (_ || _) eqn:Hd; [done|]. intros [= <-]. simpl.
  apply orb_false_iff in Hd as [Hd1 Hd2].
  apply Z.ltb_ge in Hd1, Hd2.
  pose proof (daysIn_le (if month t0 <? 0 then 1 else month t0) (year t0)).
  split; [done|]. split; [|lia].
  destruct (month t0 <? 0) eqn:Hneg; [lia|].
  apply Z.ltb_ge in Hneg. lia.
Qed.

(** *** The canonical date *)

Lemma isDigitByte_digitChar d : isDigitByte (digitChar d) = true.
Proof.
  pose proof (Z.mod_pos_bound d 10 ltac:(lia)) as Hd.
  unfold digitChar.
  assert (d mod 10 = 0 ∨ d mod 10 = 1 ∨ d mod 10 = 2 ∨ d mod 10 = 3 ∨ d mod 10 = 4
          ∨ d mod 10 = 5 ∨ d mod 10 = 6 ∨ d mod 10 = 7 ∨ d mod 10 = 8 ∨ d mod 10 = 9)
    as Hcases by lia.
  repeat (destruct Hcases as [-> | Hcases]; [reflexivity|]).
  by rewrite Hcases.
Qed.

Lemma FormatDate_shape t :
  0 ≤ year t < 10000 → 1 ≤ month t ≤ 12 → 1 ≤ day t ≤ 31 →
  isYMD (FormatDate t) = true.
Proof.
  intros Hy Hm Hd. unfold FormatDate, pad4, pad2.
  replace (year t <? 10000) with true by (symmetry; apply Z.ltb_lt; lia).
  replace (month t <? 100) with true by (symmetry; apply Z.ltb_lt; lia).
  replace (day t <? 100) with true by (symmetry; apply Z.ltb_lt; lia).
  rewrite !append_String, !append_Empty. cbn [isYMD].
  by rewrite !isDigitByte_digitChar.
Qed.


(** The layouts are tried in order: the first that parses gives the
    result, and without one the input is returned. *)
Lemma parseDateWith_spec fs s :
  (∃ pre f post t,
      fs = pre ++ f :: post
      ∧ Forall (λ g, Parse g s = None) pre
      ∧ Parse f s = Some t
      ∧ parseDateWith fs s = FormatDate t)
  ∨ (Forall (λ g, Parse g s = None) fs ∧ parseDateWith fs s = s).
Proof.
  induction fs as [|f fs IH]; [right; by split|].
  cbn [parseDateWith]. destruct (Parse f s) as [t|] eqn:Hf.
  - left. exists [], f, fs, t. by repeat split.
  - destruct IH as [(pre & g & post & t & -> & Hpre & Hg & Hres) | [Hall Hres]].
    + left. exists (f :: pre), g, post, t. repeat split; [|done..].
      by constructor.
    + right. split; [by constructor | done].
Qed.


(** *** Fields are written once, lists have no duplicates *)









Lemma contains_false l v : contains l v = false → v ∉ l.
Proof.
  unfold contains. intros Hc Hin.
  assert (existsb (λ s, eqb s v) l = true) as Ht; [|congruence].
  apply existsb_exists. exists v. split; [by apply list_elem_of_In|].
  by apply eqb_true.
Qed.

Section Fields.
Context `{UnicodeTables}.





Lemma contains_decide l v : contains l v = bool_decide (v ∈ l).
Proof.
  destruct (contains l v) eqn:Hc; symmetry.
  - apply bool_decide_eq_true. unfold contains in Hc.
    apply existsb_exists in Hc as (x & Hx & ->%eqb_true). by apply list_elem_of_In.
  - apply bool_decide_eq_false. by apply contains_false.
Qed.

(** What [classify] does with a line, by the field the line is classified
    to. *)
Lemma classify_selects key value result :
  match selects key value result with
  | FRegistrar => classify key value result = set_Registrar value result
  | FCreationDate => classify key value result = set_CreationDate (parseDate value) result
  | FExpirationDate =>
    classify key value result = set_ExpirationDate (parseDate value) result
  | FUpdatedDate => classify key value result = set_UpdatedDate (parseDate value) result
  | FNameServer =>
    classify key value result
    = if bool_decide (value ∈ NameServers result) then result
      else set_NameServers (NameServers result ++ [value]) result
  | FStatus => classify key value result = set_Status (Status result ++ [value]) result
  | FDnssec => classify key value result = set_DNSSEC value result
  | FNone => classify key value result = result
  end.
Proof.
  unfold selects, classify, anyOf. cbn [existsb].
  rewrite !orb_false_r, ?orb_assoc, !contains_decide.
  destruct (Contains key "registrar" && eqb (Registrar result) ""); [done|].
  destruct ((Contains key "created" || Contains key "creation date"
             || Contains key "registered on") && eqb (CreationDate result) ""); [done|].
  destruct ((Contains key "expires" || Contains key "expiration"
             || Contains key "expiry date" || Contains key "registry expiry")
            && eqb (ExpirationDate result) ""); [done|].
  destruct ((Contains key "updated" || Contains key "modified" || Contains key "changed")
            && eqb (UpdatedDate result) ""); [done|].
  destruct ((Contains key "name server" || Contains key "nserver")
            && negb (EqualFold value "unsigned")).
  { by destruct (bool_decide (value ∈ NameServers result)). }
  destruct (HasPrefix key "status" && negb (bool_decide (value ∈ Status result))); [done|].
  by destruct (Contains key "dnssec" || Contains key "ds data").
Qed.


(** A line is skipped, or its key and value are classified. *)
Lemma parseLine_classify result text :
  parseLine result text
  = if hasField text then classify (keyOf text) (valueOf text) result else result.
Proof.
  unfold parseLine, hasField, keyOf, valueOf.
  destruct (eqb (TrimSpace text) ""); [done|].
  destruct (Contains (TrimSpace text) ":"); [|done]. cbn [negb orb andb].
  by destruct (eqb (TrimSpace (nth 1 (SplitN2 (TrimSpace text) ":") "")) "").
Qed.

(** A date field after one line: as it was, or the normalised value. *)
Lemma classify_dates key value result :
  (CreationDate (classify key value result) = CreationDate result
   ∨ CreationDate (classify key value result) = parseDate value)
  ∧ (ExpirationDate (classify key value result) = ExpirationDate result
     ∨ ExpirationDate (classify key value result) = parseDate value)
  ∧ (UpdatedDate (classify key value result) = UpdatedDate result
     ∨ UpdatedDate (classify key value result) = parseDate value).
Proof.
  pose proof (classify_selects key value result) as Hc.
  destruct (selects key value result); try (rewrite Hc; cbn; by auto).
  destruct (bool_decide (value ∈ NameServers result)); rewrite Hc; cbn; by auto.
Qed.

Lemma fold_parseLine_dates (D : t → string) lines :
  (∀ key value r,
     D (classify key value r) = D r ∨ D (classify key value r) = parseDate value) →
  ∀ result, normalisedFrom lines (D result) (D (fold_left parseLine lines result)).
Proof.
  intros HD. induction lines as [|text lines IH]; intros result; [by left|].
  cbn [fold_left].
  destruct (IH (parseLine result text)) as [Hsame | (text' & Hin & Hf & Hd)].
  - rewrite Hsame, parseLine_classify.
    destruct (hasField text) eqn:Hf; [|by left].
    destruct (HD (keyOf text) (valueOf text) result) as [-> | ->]; [by left|].
    right. exists text. split; [apply list_elem_of_here | done].
  - right. exists text'. split; [by apply list_elem_of_further | done].
Qed.

Lemma parseRaw_dates raw result :
  let lines := Split raw "010" in
  normalisedFrom lines (CreationDate result) (CreationDate (parseRaw raw result))
  ∧ normalisedFrom lines (ExpirationDate result) (ExpirationDate (parseRaw raw result))
  ∧ normalisedFrom lines (UpdatedDate result) (UpdatedDate (parseRaw raw result)).
Proof.
  intros lines. unfold parseRaw. fold lines.
  split; [|split]; apply fold_parseLine_dates; intros key value r;
    apply (classify_dates key value r).
Qed.


End Fields.

(** *** The lookup *)

Section Lookup.
Context `{UnicodeTables}.

Lemma silent_rejected r :
  silent r = true → negb (Env.failed r) && negb (eqb (TrimSpace (Env.out r)) "") = false.
Proof. unfold silent. by destruct (Env.failed r), (eqb _ ""). Qed.

Lemma fallbackWhoisFrom_silent srvs domain w t :
  (∀ t c, silent (w t c) = true) →
  ∃ t', fallbackWhoisFrom srvs domain w t
        = (("", Some "all whois servers unreachable"), t')
        ∧ t'.*1 = t.*1 ++ (Env.TcpWhois domain <$> srvs).
Proof.
  intros Hs. revert t. induction srvs as [|srv srvs IH]; intros t.
  - exists t. split; [done|]. by rewrite app_nil_r.
  - cbn [fallbackWhoisFrom]. rewrite run_bind, run_call. cbn [fst snd].
    rewrite (silent_rejected _ (Hs _ _)).
    destruct (IH (t ++ [(Env.TcpWhois domain srv, w t (Env.TcpWhois domain srv))]))
      as (t' & Hrun & Hcalls).
    exists t'. split; [done|].
    rewrite Hcalls, fmap_app. cbn [fmap list_fmap fst]. by rewrite <- app_assoc.
Qed.

(** When no source gives anything, the library and the four servers have
    been asked, in that order, and the result is blank but for the note. *)
Lemma performWhoisLookup_silent w domain debug :
  (∀ t c, silent (w t c) = true) →
  Env.result w (performWhoisLookup domain debug)
  = set_Raw "empty response from all whois sources" (blank domain)
  ∧ Env.calls w (performWhoisLookup domain debug)
    = Env.WhoisLib domain :: (Env.TcpWhois domain <$> servers).
Proof.
  intros Hs. unfold Env.result, Env.calls, Env.run, performWhoisLookup.
  rewrite run_bind, run_call. cbn [fst snd].
  fold (silent (w [] (Env.WhoisLib domain))). rewrite Hs.
  rewrite run_bind. unfold fallbackWhois.
  rewrite (run_bind (fallbackWhoisFrom servers domain)).
  destruct (fallbackWhoisFrom_silent servers domain w
              ([] ++ [(Env.WhoisLib domain, w [] (Env.WhoisLib domain))]) Hs)
    as (t' & -> & Hcalls).
  rewrite run_ret. cbn [fst snd].
  replace (eqb (TrimSpace "") "") with true by done.
  rewrite run_ret. cbn [fst snd]. split; [by destruct debug | done].
Qed.

(** When the library answers with text, that text is parsed. *)
Lemma performWhoisLookup_answer w domain debug :
  Env.err (w [] (Env.WhoisLib domain)) = None →
  TrimSpace (Env.out (w [] (Env.WhoisLib domain))) ≠ "" →
  Env.result w (performWhoisLookup domain debug)
  = parseRaw (Env.out (w [] (Env.WhoisLib domain)))
      (if debug then set_Raw (Env.out (w [] (Env.WhoisLib domain))) (blank domain)
       else blank domain).
Proof.
  intros Herr Hraw. apply eqb_false in Hraw.
  unfold Env.result, Env.run, performWhoisLookup.
  rewrite run_bind, run_call. cbn [fst snd].
  unfold Env.failed. rewrite Herr, Hraw. cbn [orb].
  rewrite run_bind, run_ret. cbn [fst snd]. rewrite Hraw.
  reflexivity.
Qed.

(** C7: [parseDate] tries its six layouts in order; the first that parses
    gives the result, which has the date-only shape YYYY-MM-DD; when none
    parses the input is returned as it is.  A line with a value that is
    classified to the creation date, the expiration date or the updated
    date stores [parseDate] of its value in that field.  When the WHOIS
    library answers with text, each of the three date fields of the result
    is empty or is [parseDate] of the value of one of the lines of the
    answer.  When the library answers with the line
    "Registry Expiry Date: 2025-03-01T00:00:00Z", the expiration date of
    the result is "2025-03-01". *)
Theorem C7_dates_normalised :
  (∀ s,
     (∃ pre f post t,
         formats = pre ++ f :: post
         ∧ Forall (λ g, Parse g s = None) pre
         ∧ Parse f s = Some t
         ∧ parseDate s = FormatDate t
         ∧ isYMD (parseDate s) = true)
     ∨ (Forall (λ g, Parse g s = None) formats ∧ parseDate s = s))
  ∧ (∀ result text,
       hasField text = true →
       match selects (keyOf text) (valueOf text) result with
       | FCreationDate => CreationDate (parseLine result text) = parseDate (valueOf text)
       | FExpirationDate =>
         ExpirationDate (parseLine result text) = parseDate (valueOf text)
       | FUpdatedDate => UpdatedDate (parseLine result text) = parseDate (valueOf text)
       | _ => True
       end)
  ∧ (∀ w domain debug,
       Env.err (w [] (Env.WhoisLib domain)) = None →
       TrimSpace (Env.out (w [] (Env.WhoisLib domain))) ≠ "" →
       let r := Env.result w (performWhoisLookup domain debug) in
       let lines := Split (Env.out (w [] (Env.WhoisLib domain))) "010" in
       normalisedFrom lines "" (CreationDate r)
       ∧ normalisedFrom lines "" (ExpirationDate r)
       ∧ normalisedFrom lines "" (UpdatedDate r))
  ∧ (∀ w domain debug,
       w [] (Env.WhoisLib domain)
       = Worlds.ok "Registry Expiry Date: 2025-03-01T00:00:00Z" →
       ExpirationDate (Env.result w (performWhoisLookup domain debug)) = "2025-03-01").
Proof.
  split; [|split; [|split]].
  - intros s. unfold parseDate.
    destruct (parseDateWith_spec formats s)
      as [(pre & f & post & t & Hf & Hpre & Hp & Hres) | Hnone]; [left|by right].
    exists pre, f, post, t. repeat split; [done..|].
    rewrite Hres. apply Parse_range in Hp as (? & ? & ?). by apply FormatDate_shape.
  - intros result text Hf. rewrite parseLine_classify, Hf.
    pose proof (classify_selects (keyOf text) (valueOf text) result) as Hc.
    destruct (selects (keyOf text) (valueOf text) result); try done; by rewrite Hc.
  - intros w domain debug Herr Hraw r lines. subst r lines.
    rewrite performWhoisLookup_answer by done.
    destruct debug; apply parseRaw_dates.
  - intros w domain debug Hw.
    rewrite performWhoisLookup_answer; rewrite Hw; [|done|by vm_compute].
    cbn [Env.out Worlds.ok]. destruct debug; vm_compute; reflexivity.
Qed.

End Lookup.

End WhoisFacts.

Lemma C7_dates_normalised_witness :
  let w := Worlds.whoisAnswers "Registry Expiry Date: 2025-03-01T00:00:00Z" in
  let r := Env.result w (@Whois.performWhoisLookup asciiTables "example.com" false) in
  WhoisResult.ExpirationDate r = "2025-03-01"
  ∧ WhoisSpec.normalisedFrom ["Registry Expiry Date: 2025-03-01T00:00:00Z"] ""
      (WhoisResult.CreationDate r)
  ∧ WhoisResult.UpdatedDate
      (@Whois.parseLine asciiTables (WhoisSpec.blank "example.com")
         "Updated Date: 2024-02-10T09:30:00Z")
    = "2024-02-10".
Proof.
  intros w r.
  destruct (@WhoisFacts.C7_dates_normalised asciiTables) as (_ & Hline & Hall & Hone).
  split; [|split].
  - apply Hone. reflexivity.
  - apply (Hall w "example.com" false); [reflexivity | by vm_compute].
  - exact (Hline (WhoisSpec.blank "example.com") "Updated Date: 2024-02-10T09:30:00Z"
             eq_refl).
Defined.



(** ** enumeration: ffuf *)

Module EnumerationFacts.
Import GoStrings GoInt Enumeration FuffResult.

Lemma performPathBrute_no_ffuf w domain wordlist :
  Env.failed (w [] (Env.LookPath "ffuf")) = true →
  Env.run w (performPathBrute domain wordlist)
  = (FuffResult.mk domain
       (SList [PathItem.mk "error: ffuf not installed or not in PATH"]) 0,
     [(Env.LookPath "ffuf", w [] (Env.LookPath "ffuf"))]).
Proof.
  intros Hf. unfold Env.run, performPathBrute.
  rewrite run_bind, run_call. cbn [fst snd]. by rewrite Hf.
Qed.

Lemma performPathBrute_ffuf_fails w domain wordlist :
  Env.failed (w [] (Env.LookPath "ffuf")) = false →
  (∀ t args, Env.failed (w t (Env.Run None "ffuf" args "")) = true) →
  Env.result w (performPathBrute domain wordlist) = FuffResult.mk domain (SList []) 0.
Proof.
  intros Hl Hr. unfold Env.result, Env.run, performPathBrute.
  rewrite run_bind, run_call. cbn [fst snd]. rewrite Hl.
  rewrite run_bind, run_call. cbn [fst snd].
  rewrite run_bind, run_call. cbn [fst snd]. by rewrite Hr.
Qed.

End EnumerationFacts.

(** C4 (amended): a tool that is missing, times out or fails is never an
    error for the caller, and what the caller gets depends on the entry
    point.  [performDebugAmass] always returns the status "completed" and
    at least one entity.  [performWhoisLookup], when the library and the
    four servers give nothing, has asked them in order and returns blank
    fields with the note "empty response from all whois sources".
    [performPathBrute] returns one entry that names the error when ffuf is
    missing, and the empty list with count 0 when ffuf fails.
    [performSubdomainEnum] returns one entry that names the error, without
    running any probe, when theHarvester is missing. *)
Theorem C4_failures_by_entry_point `{UnicodeTables} (w : Env.World) (domain : string) :
  (∀ passive timeout wordlist debug,
     AmassResult.Status
       (Env.result w (Amass.performDebugAmass domain passive timeout wordlist debug))
     = "completed"
     ∧ AmassResult.Subdomains
         (Env.result w (Amass.performDebugAmass domain passive timeout wordlist debug))
       ≠ [])
  ∧ (∀ debug,
       (∀ t c, WhoisSpec.silent (w t c) = true) →
       Env.result w (Whois.performWhoisLookup domain debug)
       = WhoisResult.set_Raw "empty response from all whois sources" (WhoisSpec.blank domain)
       ∧ Env.calls w (Whois.performWhoisLookup domain debug)
         = Env.WhoisLib domain :: (Env.TcpWhois domain <$> Whois.servers))
  ∧ (∀ wordlist,
       Env.failed (w [] (Env.LookPath "ffuf")) = true →
       Env.run w (Enumeration.performPathBrute domain wordlist)
       = (FuffResult.mk domain
            (SList [PathItem.mk "error: ffuf not installed or not in PATH"]) 0,
          [(Env.LookPath "ffuf", w [] (Env.LookPath "ffuf"))]))
  ∧ (∀ wordlist,
       Env.failed (w [] (Env.LookPath "ffuf")) = false →
       (∀ t args, Env.failed (w t (Env.Run None "ffuf" args "")) = true) →
       Env.result w (Enumeration.performPathBrute domain wordlist)
       = FuffResult.mk domain (SList []) 0)
  ∧ (∀ passive codes debug,
       Env.failed (w [] (Env.LookPath "theHarvester")) = true →
       Env.run w (Recon.performSubdomainEnum domain passive codes debug)
       = (SubdomainResult.mk domain (SList ["error: theHarvester not in PATH"]) 0,
          [(Env.LookPath "theHarvester", w [] (Env.LookPath "theHarvester"))])).
Proof.
  split; [intros; apply AmassFacts.performDebugAmass_completed|].
  split; [intros; by apply WhoisFacts.performWhoisLookup_silent|].
  split; [intros; by apply EnumerationFacts.performPathBrute_no_ffuf|].
  split; [intros; by apply EnumerationFacts.performPathBrute_ffuf_fails|].
  intros. by apply ReconFacts.performSubdomainEnum_no_harvester.
Qed.

Lemma C4_failures_by_entry_point_witness :
  Env.result Worlds.whoisSilent (@Whois.performWhoisLookup asciiTables "example.com" true)
  = WhoisResult.set_Raw "empty response from all whois sources" (WhoisSpec.blank "example.com")
  ∧ Env.result Worlds.whoisSilent (Enumeration.performPathBrute "example.com" "words.txt")
    = FuffResult.mk "example.com"
        (SList [PathItem.mk "error: ffuf not installed or not in PATH"]) 0
  ∧ Env.result Worlds.ffufFails (Enumeration.performPathBrute "example.com" "words.txt")
    = FuffResult.mk "example.com" (SList []) 0
  ∧ Env.calls Worlds.harvesterMissing
      (Recon.performSubdomainEnum "example.com" true "200" false)
    = [Env.LookPath "theHarvester"].
Proof.
  destruct (@C4_failures_by_entry_point asciiTables Worlds.whoisSilent "example.com")
    as (_ & Hwhois & Hnoffuf & _ & _).
  destruct (@C4_failures_by_entry_point asciiTables Worlds.ffufFails "example.com")
    as (_ & _ & _ & Hffuf & _).
  destruct (@C4_failures_by_entry_point asciiTables Worlds.harvesterMissing "example.com")
    as (_ & _ & _ & _ & Hharv).
  split; [|split; [|split]].
  - apply (Hwhois true). intros t c. reflexivity.
  - unfold Env.result. by rewrite (Hnoffuf "words.txt").
  - apply (Hffuf "words.txt"); [reflexivity|]. intros t args. reflexivity.
  - unfold Env.calls. by rewrite (Hharv true "200" false).
Defined.

(** C4, as stated, fails: with theHarvester missing and everything else
    installed, [performSubdomainEnum] does not go on to recon-ng or crt.sh
    but returns an error entry after the one look-up; and with amass
    missing, [performDebugAmass] returns twelve entities, not none. *)
Lemma C4_missing_tool_stops_the_enumeration :
  Env.run Worlds.harvesterMissing
    (Recon.performSubdomainEnum "example.com" true "200,301,302,403" false)
  = (SubdomainResult.mk "example.com" (SList ["error: theHarvester not in PATH"]) 0,
     [(Env.LookPath "theHarvester",
       Worlds.fails "executable file not found in $PATH")])
  ∧ Env.failed (Worlds.harvesterMissing [] (Env.LookPath "recon-ng")) = false
  ∧ length (AmassResult.Subdomains
              (Env.result Worlds.amassAbsent
                 (Amass.performDebugAmass "example.com" true 300 "" false))) = 12%nat.
Proof. repeat split; vm_compute; reflexivity. Qed.

(* ===================================================================== *)
(** * Further properties of the code *)
(* ===================================================================== *)

(** ** amass.go *)

Module AmassMore.
Import GoStrings GoInt Amass AmassResult AmassSpec AmassNames AmassFacts.

#[local] Arguments fallbackIndicators : simpl never.
#[local] Arguments parseAmassOut : simpl never.

Lemma addSubdomain_seen name source st n :
  seen_get st.2 n = true → seen_get (addSubdomain name source st).2 n = true.
Proof. destruct st as [r s]. cbn. intros Hn. apply seen_get_insert. by right. Qed.

Lemma addSubdomain_marks name source st :
  seen_get (addSubdomain name source st).2 name = true.
Proof. destruct st as [r s]. cbn. apply seen_get_insert. by left. Qed.

Lemma parseToken_offer domain source st tok :
  parseToken domain source st tok
  = if isSub domain (Trim tok "[](){}<>")
    then offer source st (Trim tok "[](){}<>") else st.
Proof.
  unfold parseToken, offer, isSub.
  destruct (HasSuffix _ _ && negb (eqb _ domain)); cbn [andb]; [|done].
  by destruct (seen_get st.2 _).
Qed.

Lemma fold_tokens_offer domain source toks st :
  fold_left (parseToken domain source) toks st
  = fold_left (offer source)
      (filter (λ n, isSub domain n = true) ((λ tok, Trim tok "[](){}<>") <$> toks)) st.
Proof.
  revert st. induction toks as [|tok toks IH]; intros st; [done|].
  cbn [fold_left fmap list_fmap]. rewrite filter_cons, parseToken_offer.
  destruct (isSub domain _) eqn:Hs.
  - rewrite decide_True by done. cbn [fold_left]. apply IH.
  - rewrite decide_False by (cbv beta; congruence). apply IH.
Qed.

(** One line of the parser: count it, then offer its names in order. *)
Lemma parseLine_offer domain source st text :
  parseLine domain source st text
  = if eqb (TrimSpace text) "" || Contains (TrimSpace text) "The enumeration has finished"
    then st
    else fold_left (offer source) (lineNames domain text) (incrParsedLines st).
Proof.
  unfold parseLine, lineNames.
  destruct (eqb _ "" || _); [done|].
  fold (isSub domain (TrimSpace text)).
  destruct (isSub domain (TrimSpace text)).
  - cbn [fold_left]. unfold offer.
    by destruct (seen_get (incrParsedLines st).2 _).
  - apply fold_tokens_offer.
Qed.

(** *** Merging the same output again changes nothing *)

Lemma offer_seen_mono source st n m :
  seen_get st.2 m = true → seen_get (offer source st n).2 m = true.
Proof.
  unfold offer. destruct (seen_get st.2 n); [done|]. apply addSubdomain_seen.
Qed.

Lemma offer_marks source st n : seen_get (offer source st n).2 n = true.
Proof.
  unfold offer. destruct (seen_get st.2 n) eqn:Hn; [done|]. apply addSubdomain_marks.
Qed.

Lemma fold_offer_seen_mono source ns st m :
  seen_get st.2 m = true → seen_get (fold_left (offer source) ns st).2 m = true.
Proof.
  revert st. induction ns as [|n ns IH]; intros st Hm; [done|].
  cbn [fold_left]. by apply IH, offer_seen_mono.
Qed.

Lemma fold_offer_marks source ns st n :
  n ∈ ns → seen_get (fold_left (offer source) ns st).2 n = true.
Proof.
  revert st. induction ns as [|x ns IH]; intros st Hn; [by apply elem_of_nil in Hn|].
  cbn [fold_left]. apply elem_of_cons in Hn as [->|Hn]; [|by apply IH].
  apply fold_offer_seen_mono, offer_marks.
Qed.

Lemma fold_offer_noop source ns st :
  (∀ n, n ∈ ns → seen_get st.2 n = true) → fold_left (offer source) ns st = st.
Proof.
  revert st. induction ns as [|x ns IH]; intros st Hall; [done|].
  cbn [fold_left]. unfold offer at 2. rewrite Hall by constructor.
  apply IH. intros n Hn. apply Hall. by constructor.
Qed.

Lemma parseLine_seen_mono domain source st text m :
  seen_get st.2 m = true → seen_get (parseLine domain source st text).2 m = true.
Proof.
  intros Hm. rewrite parseLine_offer. destruct (_ || _); [done|].
  apply fold_offer_seen_mono. by destruct st.
Qed.

Lemma parseLine_marks domain source st text n :
  n ∈ lineNames domain text → seen_get (parseLine domain source st text).2 n = true.
Proof.
  intros Hn. rewrite parseLine_offer.
  destruct (_ || _) eqn:Hskip.
  - unfold lineNames in Hn. rewrite Hskip in Hn. by apply elem_of_nil in Hn.
  - by apply fold_offer_marks.
Qed.

Lemma parseLines_seen_mono domain source lines st m :
  seen_get st.2 m = true →
  seen_get (fold_left (parseLine domain source) lines st).2 m = true.
Proof.
  revert st. induction lines as [|l lines IH]; intros st Hm; [done|].
  cbn [fold_left]. by apply IH, parseLine_seen_mono.
Qed.

Lemma parseLines_marks domain source lines st text n :
  text ∈ lines → n ∈ lineNames domain text →
  seen_get (fold_left (parseLine domain source) lines st).2 n = true.
Proof.
  revert st. induction lines as [|l lines IH]; intros st Ht Hn;
    [by apply elem_of_nil in Ht|].
  cbn [fold_left]. apply elem_of_cons in Ht as [->|Ht]; [|by apply IH].
  by apply parseLines_seen_mono, parseLine_marks.
Qed.

Lemma core_incrParsedLines st : core (incrParsedLines st) = core st.
Proof. by destruct st. Qed.

Lemma parseLine_noop domain source st text :
  (∀ n, n ∈ lineNames domain text → seen_get st.2 n = true) →
  core (parseLine domain source st text) = core st.
Proof.
  intros Hall. rewrite parseLine_offer. destruct (_ || _); [done|].
  rewrite fold_offer_noop; [apply core_incrParsedLines|].
  intros n Hn. destruct st. by apply Hall.
Qed.

Lemma parseLines_noop domain source lines st :
  (∀ text n, text ∈ lines → n ∈ lineNames domain text → seen_get st.2 n = true) →
  core (fold_left (parseLine domain source) lines st) = core st.
Proof.
  revert st. induction lines as [|l lines IH]; intros st Hall; [done|].
  cbn [fold_left].
  assert (core (parseLine domain source st l) = core st) as Hl.
  { apply parseLine_noop. intros n Hn. apply (Hall l n); [constructor | done]. }
  rewrite IH; [done|].
  intros text n Ht Hn.
  assert ((parseLine domain source st l).2 = st.2) as -> by (by injection Hl).
  apply (Hall text n); [by constructor | done].
Qed.

(** Merging an output a second time, under the same or another source
    name, leaves the entities, the counters and [seen] as the first merge
    left them. *)
Theorem parseAmassOut_again output domain source source' result seen debug debug' :
  let st := parseAmassOut output domain source result seen debug in
  core (parseAmassOut output domain source' st.1 st.2 debug') = core st.
Proof.
  cbv zeta. unfold parseAmassOut.
  set (st := fold_left (parseLine domain source) (Bufio.ScanLines output) (result, seen)).
  replace (st.1, st.2) with st by (by destruct st).
  apply parseLines_noop. intros text n Ht Hn. by eapply parseLines_marks.
Qed.

(** *** The merge, for whole lines and for tokens *)

Lemma offer_mergeOne source st n :
  core (offer source st n) = mergeOne source (core st) n.
Proof.
  destruct st as [r s]. unfold offer, mergeOne, core. cbn [fst snd].
  by destruct (seen_get s n).
Qed.

Lemma fold_offer_mergeNames source ns st :
  core (fold_left (offer source) ns st) = mergeNames source ns (core st).
Proof.
  unfold mergeNames. revert st. induction ns as [|n ns IH]; intros st; [done|].
  cbn [fold_left]. by rewrite IH, offer_mergeOne.
Qed.

Lemma parseLine_mergeNames domain source st text :
  core (parseLine domain source st text)
  = mergeNames source (lineNames domain text) (core st).
Proof.
  rewrite parseLine_offer. destruct (_ || _) eqn:Hskip.
  - unfold lineNames. by rewrite Hskip.
  - by rewrite fold_offer_mergeNames, core_incrParsedLines.
Qed.

Lemma parseLines_mergeNames domain source lines st :
  core (fold_left (parseLine domain source) lines st)
  = mergeNames source (concat (lineNames domain <$> lines)) (core st).
Proof.
  revert st. induction lines as [|l lines IH]; intros st; [done|].
  cbn [fold_left fmap list_fmap concat]. rewrite IH, parseLine_mergeNames.
  unfold mergeNames. by rewrite fold_left_app.
Qed.

(** C1 (amended): [parseAmassOut] merges the names its output offers, one
    after the other, those that are whole lines and those that are tokens
    of a line alike.  A name that has not been seen is appended at the end
    of the entity sequence with the provenance [[source]], marked seen and
    counted for [source]; a name that has been seen is not appended again,
    and the entity sequence, with the provenance of the entity that is
    already there, the counters and the seen map stay as they are: the new
    source is not recorded. *)
Theorem C1_merge_names output domain source result seen debug :
  core (parseAmassOut output domain source result seen debug)
  = mergeNames source (outputNames domain output) (Subdomains result, Sources result, seen).
Proof. unfold parseAmassOut, outputNames. apply parseLines_mergeNames. Qed.

(** *** Every entity is a proper subdomain of the target *)

Lemma append_assoc a b c : (a +:+ b) +:+ c = a +:+ b +:+ c.
Proof. induction a as [|x a IH]; [done|]. rewrite !append_String. by f_equal. Qed.

Lemma rev_app_acc s acc : String.rev_app s acc = String.rev_app s "" +:+ acc.
Proof.
  revert acc. induction s as [|c s IH]; intros acc; [done|].
  cbn [String.rev_app]. rewrite (IH (String c acc)), (IH (String c "")).
  by rewrite append_assoc.
Qed.

Lemma rev_app_append a b acc :
  String.rev_app (a +:+ b) acc = String.rev_app b (String.rev_app a acc).
Proof.
  revert acc. induction a as [|c a IH]; intros acc; [done|].
  rewrite append_String. cbn [String.rev_app]. apply IH.
Qed.

Lemma rev_append a b : String.rev (a +:+ b) = String.rev b +:+ String.rev a.
Proof. unfold String.rev. rewrite rev_app_append. apply rev_app_acc. Qed.

Lemma HasSuffix_append a b : HasSuffix (a +:+ b) b = true.
Proof. unfold HasSuffix. rewrite rev_append. apply ReconFacts.prefix_append. Qed.

Lemma indicator_isSub domain ind : isSub domain (ind +:+ "." +:+ domain) = true.
Proof.
  unfold isSub. apply andb_true_iff. split; [apply HasSuffix_append|].
  apply negb_true_iff, eqb_false. intros Heq.
  rewrite <- append_assoc in Heq.
  apply (append_inj_r (ind +:+ ".") "" domain) in Heq. by destruct ind.
Qed.

Lemma lineNames_isSub domain text n : n ∈ lineNames domain text → isSub domain n = true.
Proof.
  unfold lineNames. destruct (_ || _); [by intros ?%elem_of_nil|].
  destruct (isSub domain (TrimSpace text)) eqn:Hs.
  - by intros ->%list_elem_of_singleton.
  - by intros [? _]%list_elem_of_filter.
Qed.

Lemma addSubdomain_wellFormed domain name source st :
  isSub domain name = true →
  source = "amass" ∨ source = "indicator-fallback" →
  Forall (wellFormed domain) (Subdomains st.1) →
  Forall (wellFormed domain) (Subdomains (addSubdomain name source st).1).
Proof.
  destruct st as [r s]. cbn. intros Hn Hsrc Hall.
  apply Forall_app. split; [done|]. constructor; [|constructor].
  split; [done|]. split; [done|]. by destruct Hsrc as [-> | ->]; [left|right].
Qed.

Lemma parseAmassOut_wellFormed output domain result seen debug :
  Forall (wellFormed domain) (Subdomains result) →
  Forall (wellFormed domain)
    (Subdomains (parseAmassOut output domain "amass" result seen debug).1).
Proof.
  intros Hall. unfold parseAmassOut.
  apply (fold_left_preserves (λ st, Forall (wellFormed domain) (Subdomains st.1)));
    [|done].
  intros st text Hst. rewrite parseLine_offer. destruct (_ || _); [done|].
  assert (∀ ns st0, (∀ n, n ∈ ns → isSub domain n = true) →
            Forall (wellFormed domain) (Subdomains st0.1) →
            Forall (wellFormed domain) (Subdomains (fold_left (offer "amass") ns st0).1))
    as Hfold.
  { induction ns as [|n ns IH]; intros st0 Hns H0; [done|].
    cbn [fold_left]. apply IH; [intros m Hm; apply Hns; by constructor|].
    unfold offer. destruct (seen_get st0.2 n); [done|].
    apply addSubdomain_wellFormed; [apply Hns; constructor | by left | done]. }
  apply Hfold; [intros n; apply lineNames_isSub | by destruct st].
Qed.

Lemma fallbackIndicators_wellFormed domain result seen debug :
  Forall (wellFormed domain) (Subdomains result) →
  Forall (wellFormed domain) (Subdomains (fallbackIndicators domain result seen debug).1).
Proof.
  intros Hall. unfold fallbackIndicators.
  apply (fold_left_preserves (λ st, Forall (wellFormed domain) (Subdomains st.1)));
    [|done].
  intros st ind Hst. unfold fallbackStep. destruct (negb _); [|done].
  apply addSubdomain_wellFormed; [apply indicator_isSub | by right | done].
Qed.

(** Every entity [performDebugAmass] returns is a proper subdomain of the
    target (its name ends in "." and the target and is not the target),
    has no addresses, and carries exactly one provenance label, "amass" or
    "indicator-fallback". *)
Theorem performDebugAmass_entities w domain passive timeout wordlist debug :
  Forall (wellFormed domain)
    (Subdomains (Env.result w (performDebugAmass domain passive timeout wordlist debug))).
Proof.
  rewrite performDebugAmass_finish.
  assert (Forall (wellFormed domain)
            (Subdomains (Env.result w (discovery domain passive timeout wordlist debug)).1))
    as Hfound.
  { unfold Env.result, Env.run, discovery, runAmassOnce.
    rewrite !run_bind, !run_call. cbn [fst snd].
    assert (∀ r0, Subdomains r0 = [] → Forall (wellFormed domain) (Subdomains r0)) as Hnil
      by (by intros r0 ->).
    destruct (Env.err _); [destruct (_ =? _)%nat|]; cbn [fst].
    - apply Hnil. by destruct debug, passive.
    - apply parseAmassOut_wellFormed, Hnil. by destruct debug, passive.
    - apply parseAmassOut_wellFormed, Hnil. by destruct debug, passive. }
  unfold finish. destruct (len _ =? 0); [|done].
  by apply fallbackIndicators_wellFormed.
Qed.

(** *** The debug flag *)

Lemma fallbackStep_offer domain st ind :
  fallbackStep domain st ind = offer "indicator-fallback" st (ind +:+ "." +:+ domain).
Proof. unfold fallbackStep, offer. by destruct (seen_get st.2 _). Qed.

Lemma offer_rawTrace source st n : rawTrace (offer source st n).1 = rawTrace st.1.
Proof. unfold offer. destruct (seen_get st.2 n); [done|]. by destruct st. Qed.

Lemma fold_offer_rawTrace source ns st :
  rawTrace (fold_left (offer source) ns st).1 = rawTrace st.1.
Proof.
  revert st. induction ns as [|n ns IH]; intros st; [done|].
  cbn [fold_left]. by rewrite IH, offer_rawTrace.
Qed.

(** The parser and the fallback leave the raw part of the trace alone. *)
Lemma parseAmassOut_rawTrace output domain source result seen debug :
  rawTrace (parseAmassOut output domain source result seen debug).1 = rawTrace result.
Proof.
  unfold parseAmassOut.
  apply (fold_left_preserves (λ st, rawTrace st.1 = rawTrace result)); [|done].
  intros st text Hst. rewrite parseLine_offer. destruct (_ || _); [done|].
  rewrite fold_offer_rawTrace. by destruct st.
Qed.

Lemma fallbackIndicators_rawTrace domain result seen debug :
  rawTrace (fallbackIndicators domain result seen debug).1 = rawTrace result.
Proof.
  unfold fallbackIndicators.
  apply (fold_left_preserves (λ st, rawTrace st.1 = rawTrace result)); [|done].
  intros st ind Hst. by rewrite fallbackStep_offer, offer_rawTrace.
Qed.

(** With debug off, no raw output, no error text and no line total is
    recorded, whatever amass does. *)
Theorem performDebugAmass_debug_off w domain passive timeout wordlist :
  rawTrace (Env.result w (performDebugAmass domain passive timeout wordlist false))
  = ([], [], 0).
Proof.
  rewrite performDebugAmass_finish.
  assert (rawTrace (Env.result w (discovery domain passive timeout wordlist false)).1
          = ([], [], 0)) as Hfound.
  { unfold Env.result, Env.run, discovery, runAmassOnce.
    rewrite !run_bind, !run_call. cbn [fst snd].
    destruct (Env.err _); [destruct (_ =? _)%nat|]; unfold Env.ret; cbn [fst];
      rewrite ?parseAmassOut_rawTrace; by destruct passive. }
  unfold finish. destruct (len _ =? 0); [|done].
  change (rawTrace (fallbackIndicators domain
            (Env.result w (discovery domain passive timeout wordlist false)).1
            (Env.result w (discovery domain passive timeout wordlist false)).2 false).1
          = ([], [], 0)).
  by rewrite fallbackIndicators_rawTrace.
Qed.

Lemma offer_alike source st st' n :
  alike st st' → alike (offer source st n) (offer source st' n).
Proof.
  destruct st as [r s], st' as [r' s']. intros [Hf Hs]. cbn in Hf, Hs. subst s'.
  unfold offer. cbn [snd]. destruct (seen_get s n); [by split|].
  destruct Hf as (? & Hsub & Hsrc & ? & ? & ? & ? & ? & ?).
  split; [|done]. unfold sameFindings. cbn. rewrite Hsub, Hsrc. by repeat split.
Qed.

Lemma fold_offer_alike source ns st st' :
  alike st st' → alike (fold_left (offer source) ns st) (fold_left (offer source) ns st').
Proof.
  revert st st'. induction ns as [|n ns IH]; intros st st' Ha; [done|].
  cbn [fold_left]. by apply IH, offer_alike.
Qed.

Lemma incrParsedLines_alike st st' :
  alike st st' → alike (incrParsedLines st) (incrParsedLines st').
Proof.
  destruct st as [r s], st' as [r' s'].
  intros [Hf Hs]. cbn in Hf, Hs. destruct Hf as (? & ? & ? & ? & ? & ? & ? & ? & Hp).
  split; [|done]. unfold sameFindings. cbn. rewrite Hp. by repeat split.
Qed.

Lemma parseAmassOut_alike output domain source result result' seen debug debug' :
  sameFindings result result' →
  alike (parseAmassOut output domain source result seen debug)
        (parseAmassOut output domain source result' seen debug').
Proof.
  intros Hf. unfold parseAmassOut.
  assert (alike (result, seen) (result', seen)) as Ha by (by split).
  revert Ha. generalize (result, seen) (result', seen).
  induction (Bufio.ScanLines output) as [|l lines IH]; intros st st' Ha; [done|].
  cbn [fold_left]. apply IH. rewrite !parseLine_offer.
  destruct (_ || _); [done|]. by apply fold_offer_alike, incrParsedLines_alike.
Qed.

Lemma fallbackIndicators_alike domain st st' debug debug' :
  alike st st' →
  alike (fallbackIndicators domain st.1 st.2 debug)
        (fallbackIndicators domain st'.1 st'.2 debug').
Proof.
  intros Ha. unfold fallbackIndicators.
  replace (st.1, st.2) with st by (by destruct st).
  replace (st'.1, st'.2) with st' by (by destruct st').
  revert st st' Ha. induction indicators as [|i inds IH]; intros st st' Ha; [done|].
  cbn [fold_left]. apply IH. rewrite !fallbackStep_offer. by apply offer_alike.
Qed.

Lemma discovery_alike w domain passive timeout wordlist :
  alike (Env.result w (discovery domain passive timeout wordlist true))
        (Env.result w (discovery domain passive timeout wordlist false)).
Proof.
  unfold Env.result, Env.run, discovery, runAmassOnce.
  rewrite !run_bind, !run_call. cbn [fst snd].
  destruct (Env.err _); [destruct (_ =? _)%nat|]; unfold Env.ret; cbn [fst].
  - split; [|done]. unfold sameFindings. by destruct passive.
  - apply parseAmassOut_alike. unfold sameFindings. by destruct passive.
  - apply parseAmassOut_alike. unfold sameFindings. by destruct passive.
Qed.

Lemma sameFindings_completed r r' :
  sameFindings r r' →
  sameFindings (set_Count (len (Subdomains r)) (set_Status "completed" r))
               (set_Count (len (Subdomains r')) (set_Status "completed" r')).
Proof.
  destruct r, r'. unfold sameFindings, set_Count, set_Status.
  cbn [Domain Subdomains Sources Count Timestamp Command Mode Status Debug].
  intros (? & ? & ? & ? & ? & ? & ? & ? & ?). subst. by repeat split.
Qed.

Lemma finish_alike st st' domain debug debug' :
  alike st st' → sameFindings (finish st domain debug) (finish st' domain debug').
Proof.
  intros Ha. unfold finish.
  assert (Subdomains st.1 = Subdomains st'.1) as Hsub by apply Ha.
  rewrite Hsub. destruct (len (Subdomains st'.1) =? 0).
  - apply sameFindings_completed, (fallbackIndicators_alike domain st st' debug debug' Ha).
  - apply sameFindings_completed, Ha.
Qed.

(** The debug flag changes nothing but the raw part of the trace: the
    entities, the counters, the count, the command, the mode, the status
    and the number of parsed lines are the same with debug on and off. *)
Theorem performDebugAmass_debug_frame w domain passive timeout wordlist :
  sameFindings
    (Env.result w (performDebugAmass domain passive timeout wordlist true))
    (Env.result w (performDebugAmass domain passive timeout wordlist false)).
Proof.
  rewrite !performDebugAmass_finish. apply finish_alike, discovery_alike.
Qed.

End AmassMore.

(** ** subdomain.go *)

Module ReconExtra.
Import GoStrings GoInt Recon SubdomainResult ReconSpec ReconFacts ReconMore.

(** *** What a computation asks of the world *)

Lemma emits_ret {A} P (a : A) : emits P (mret a : Env.M A).
Proof. intros w t. exists []. split; [by rewrite run_ret, app_nil_r | constructor]. Qed.

Lemma emits_call (P : Env.Call → Prop) c : P c → emits P (Env.call c).
Proof.
  intros Hc w t. eexists. rewrite run_call. split; [reflexivity|].
  by repeat constructor.
Qed.

Lemma emits_bind {A B} P (m : Env.M A) (k : A → Env.M B) :
  emits P m → (∀ a, emits P (k a)) → emits P (m ≫= k).
Proof.
  intros Hm Hk w t. rewrite run_bind.
  destruct (Hm w t) as (e1 & H1 & Hp1).
  destruct (Hk (m w t).1 w (m w t).2) as (e2 & H2 & Hp2).
  exists (e1 ++ e2). split; [by rewrite H2, H1, app_assoc|]. by apply Forall_app.
Qed.

Lemma emits_foldM {A B} P (f : B → A → Env.M B) l b :
  (∀ b x, emits P (f b x)) → emits P (Env.foldM f l b).
Proof.
  intros Hf. revert b. induction l as [|x l IH]; intros b.
  - apply (emits_ret P b).
  - intros w t. rewrite foldM_cons.
    destruct (Hf b x w t) as (e1 & H1 & Hp1).
    destruct (IH (f b x w t).1 w (f b x w t).2) as (e2 & H2 & Hp2).
    exists (e1 ++ e2). split; [by rewrite H2, H1, app_assoc|]. by apply Forall_app.
Qed.

Lemma emits_calls {A} P (m : Env.M A) w :
  emits P m → Forall P (Env.calls w m).
Proof.
  intros Hm. unfold Env.calls, Env.run. destruct (Hm w []) as (ext & -> & Hp).
  cbn [app]. by apply Forall_fmap.
Qed.

Lemma endsWith_last {A} P c (a : A) :
  endsWith P c (Env.call c ≫= λ _, mret a).
Proof.
  intros w t. exists [], (w t c). rewrite run_bind, run_call, run_ret.
  split; [done | constructor].
Qed.

Lemma endsWith_bind {A B} P c (m : Env.M A) (k : A → Env.M B) :
  emits P m → (∀ a, endsWith P c (k a)) → endsWith P c (m ≫= k).
Proof.
  intros Hm Hk w t. rewrite run_bind.
  destruct (Hm w t) as (e1 & H1 & Hp1).
  destruct (Hk (m w t).1 w (m w t).2) as (e2 & r & H2 & Hp2).
  exists (e1 ++ e2), r. split; [by rewrite H2, H1, !app_assoc|]. by apply Forall_app.
Qed.

(** *** The calls of the enumeration *)

Section Allowed.
Variables stderr cleanup : bool.

Lemma emits_debugPrint debug title text :
  (debug = true → stderr = true) →
  emits (allowed stderr cleanup) (debugPrint debug title text).
Proof.
  intros Hd. unfold debugPrint. destruct debug; [|apply emits_ret].
  apply emits_bind; [apply emits_call; by apply Hd | intros _; apply emits_ret].
Qed.

Lemma emits_bash args stdin :
  emits (allowed stderr cleanup) (Env.call (Env.Run None "bash" args stdin)).
Proof. apply emits_call. by left. Qed.

Lemma emits_runHarvester domain outFile passive debug :
  (debug = true → stderr = true) →
  emits (allowed stderr cleanup) (runHarvester domain outFile passive debug).
Proof.
  intros Hd. unfold runHarvester.
  apply emits_bind; [apply emits_bash | intros r; by apply emits_debugPrint].
Qed.

Lemma emits_runReconNg domain outFile passive debug :
  (debug = true → stderr = true) →
  emits (allowed stderr cleanup) (runReconNg domain outFile passive debug).
Proof.
  intros Hd. unfold runReconNg.
  apply emits_bind; [by apply emits_call | intros _].
  apply emits_bind; [apply emits_bash | intros r; by apply emits_debugPrint].
Qed.

Lemma emits_runCrtSh domain outFile debug :
  (debug = true → stderr = true) →
  emits (allowed stderr cleanup) (runCrtSh domain outFile debug).
Proof.
  intros Hd. unfold runCrtSh.
  apply emits_bind; [apply emits_bash | intros r; by apply emits_debugPrint].
Qed.

Lemma emits_probeWithCurl hosts codes debug :
  emits (allowed stderr cleanup) (probeWithCurl hosts codes debug).
Proof.
  unfold probeWithCurl. apply emits_foldM. intros alive h. unfold curlStep.
  destruct (negb _); [apply emits_ret|].
  apply emits_bind.
  - unfold curlStatus. apply emits_bind; [|intros r; apply emits_ret].
    apply emits_call. right. by right.
  - intros code. destruct (default false _); apply emits_ret.
Qed.

Lemma emits_probeWithHttpx hosts codes debug :
  (debug = true → stderr = true) →
  emits (allowed stderr cleanup) (probeWithHttpx hosts codes debug).
Proof.
  intros Hd. unfold probeWithHttpx.
  destruct (len hosts =? 0); [apply emits_ret|].
  apply emits_bind; [by apply emits_call|]. intros lp.
  destruct (Env.failed lp); [apply emits_probeWithCurl|].
  apply emits_bind; [apply emits_call; right; by left|]. intros r.
  apply emits_bind; [by apply emits_debugPrint|]. intros _.
  destruct (_ && _); [apply emits_probeWithCurl | apply emits_ret].
Qed.

End Allowed.

(** Whatever the world answers, [performSubdomainEnum] looks up programs,
    asks for a scratch directory, writes and reads files in it, runs bash,
    httpx and curl, and removes the directory; it writes to standard error
    only with debug on. *)
Theorem performSubdomainEnum_calls w domain passive codes debug :
  Forall (allowed debug true) (Env.calls w (performSubdomainEnum domain passive codes debug)).
Proof.
  apply emits_calls. unfold performSubdomainEnum.
  apply emits_bind; [by apply emits_call|]. intros lp1.
  destruct (Env.failed lp1); [apply emits_ret|].
  apply emits_bind; [by apply emits_call|]. intros lp2.
  destruct (Env.failed lp2); [apply emits_ret|].
  apply emits_bind; [by apply emits_call|]. intros td.
  destruct (Env.err td); [apply emits_ret|].
  apply emits_bind; [by apply emits_runHarvester|]. intros _.
  apply emits_bind; [by apply emits_runReconNg|]. intros _.
  apply emits_bind; [by apply emits_runCrtSh|]. intros _.
  apply emits_bind; [apply emits_bash|]. intros _.
  apply emits_bind; [by apply emits_call|]. intros raw.
  apply emits_bind; [by apply emits_debugPrint|]. intros _.
  apply emits_bind; [by apply emits_probeWithHttpx|]. intros alive.
  apply emits_bind; [by apply emits_call|]. intros _.
  apply emits_ret.
Qed.

(** When the tools and the scratch directory are there, the scratch
    directory is removed by the last call, and by no call before it. *)
Theorem performSubdomainEnum_cleanup w domain passive codes debug :
  toolsPresent w →
  ∃ mid,
    Env.calls w (performSubdomainEnum domain passive codes debug)
    = [Env.LookPath "theHarvester"; Env.LookPath "recon-ng"; Env.TempDir "recon-"]
      ++ mid ++ [Env.RemoveAll (scratchDir w)]
    ∧ Forall (allowed debug false) mid.
Proof.
  intros Htools. unfold Env.calls, Env.run, performSubdomainEnum.
  rewrite run_bind, run_call. cbn [fst snd]. unfold Env.failed at 1.
  rewrite (proj1 (Htools _)).
  rewrite run_bind, run_call. cbn [fst snd]. unfold Env.failed at 1.
  rewrite (proj1 (proj2 (Htools _))).
  rewrite run_bind, run_call. cbn [fst snd].
  rewrite (proj2 (proj2 (Htools _))).
  fold (lookups w). fold (scratchDir w).
  match goal with
  | |- context [(?m ≫= ?k) w ?t] =>
    assert (endsWith (allowed debug false) (Env.RemoveAll (scratchDir w)) (m ≫= k)) as Hend
  end.
  { apply endsWith_bind; [by apply emits_runHarvester|]. intros _.
    apply endsWith_bind; [by apply emits_runReconNg|]. intros _.
    apply endsWith_bind; [by apply emits_runCrtSh|]. intros _.
    apply endsWith_bind; [apply emits_bash|]. intros _.
    apply endsWith_bind; [by apply emits_call|]. intros raw.
    apply endsWith_bind; [by apply emits_debugPrint|]. intros _.
    apply endsWith_bind; [by apply emits_probeWithHttpx|]. intros alive.
    apply endsWith_last. }
  match goal with
  | |- context [(?m ≫= ?k) w ?t] => destruct (Hend w t) as (ext & r & -> & Hp)
  end.
  exists ext.*1. split.
  - unfold lookups. cbv zeta. rewrite !fmap_app. cbn [fmap list_fmap fst app].
    reflexivity.
  - by apply Forall_fmap.
Qed.

(** *** The slow path keeps candidates, in order *)

Lemma curlLoop_survivors want hosts alive w t :
  ∃ kept,
    Slice.elems (Env.foldM (curlStep want) hosts alive w t).1 = Slice.elems alive ++ kept
    ∧ sublist kept hosts
    ∧ Forall (λ h, isValidDomain h = true) kept.
Proof.
  revert alive t. induction hosts as [|h hosts IH]; intros alive t.
  - exists []. by rewrite app_nil_r.
  - rewrite foldM_cons, curlStep_run.
    destruct (isValidDomain h) eqn:Hv; cbn [fst snd].
    + destruct (default false _).
      * destruct (IH (Slice.append alive h)
                    (t ++ [(curlCall h, w t (curlCall h))])) as (kept & Hk & Hs & Hf).
        exists (h :: kept). split; [|split].
        -- rewrite Hk. cbn [Slice.append Slice.elems]. by rewrite <- app_assoc.
        -- by apply sublist_skip.
        -- by constructor.
      * destruct (IH alive (t ++ [(curlCall h, w t (curlCall h))]))
          as (kept & Hk & Hs & Hf).
        exists kept. split; [done|]. split; [by apply sublist_cons | done].
    + destruct (IH alive t) as (kept & Hk & Hs & Hf).
      exists kept. split; [done|]. split; [by apply sublist_cons | done].
Qed.

(** The hosts [probeWithCurl] keeps are candidates it was given, in the
    order given, each at most as often as given, and each passes
    [isValidDomain]. *)
Theorem probeWithCurl_survivors w t hosts codes debug :
  sublist (Slice.elems (probeWithCurl hosts codes debug w t).1) hosts
  ∧ Forall (λ h, isValidDomain h = true)
      (Slice.elems (probeWithCurl hosts codes debug w t).1).
Proof.
  unfold probeWithCurl.
  destruct (curlLoop_survivors (wantCodes codes) hosts SNil w t) as (kept & -> & Hs & Hf).
  by split.
Qed.

(** *** The accepted status codes *)

Lemma wantCodes_fold (cs : list string) (acc : gmap string bool) k :
  default false (fold_left (λ want c, <[TrimSpace c := true]> want) cs acc !! k) = true
  ↔ k ∈ TrimSpace <$> cs ∨ default false (acc !! k) = true.
Proof.
  revert acc. induction cs as [|c cs IH]; intros acc; cbn [fold_left fmap list_fmap].
  - split; [by right|]. intros [Hk|Hk]; [by apply elem_of_nil in Hk | done].
  - rewrite IH, elem_of_cons.
    destruct (decide (TrimSpace c = k)) as [<-|Hne].
    + rewrite lookup_insert_eq. cbn. tauto.
    + rewrite lookup_insert_ne by done. split; [tauto|].
      intros [[Hk|Hk]|Hk]; [congruence | tauto | tauto].
Qed.

(** A status is accepted exactly when it is one of the comma-separated
    items of [codes], trimmed of white space. *)
Theorem wantCodes_accepts codes k :
  default false (wantCodes codes !! k) = true ↔ k ∈ TrimSpace <$> Split codes ",".
Proof.
  unfold wantCodes. rewrite wantCodes_fold, lookup_empty. cbn. split; [|tauto].
  by intros [?|?].
Qed.

(** *** The batch path has precedence *)

(** When httpx is installed and reports at least one host, the result is
    what it reported and curl is not run. *)
Theorem probeWithHttpx_batch w hosts codes :
  hosts ≠ [] →
  Env.failed (w [] (Env.LookPath "httpx")) = false →
  let t1 := [(Env.LookPath "httpx", w [] (Env.LookPath "httpx"))] in
  let alive := batchAlive (Env.out (w t1 (httpxCall hosts codes))) in
  Slice.len alive ≠ 0 →
  Env.run w (probeWithHttpx hosts codes false)
  = (alive, t1 ++ [(httpxCall hosts codes, w t1 (httpxCall hosts codes))]).
Proof.
  intros Hh Hlp t1 alive Halive. unfold Env.run, probeWithHttpx.
  replace (len hosts =? 0) with false
    by (symmetry; apply Z.eqb_neq; unfold len; destruct hosts; [done | simpl; lia]).
  rewrite run_bind, run_call. cbn [fst snd]. rewrite Hlp.
  rewrite run_bind, run_call. cbn [fst snd].
  rewrite run_bind. unfold debugPrint. rewrite run_ret. cbn [fst snd].
  fold (httpxCall hosts codes). change ([] ++ ?x) with x. fold t1.
  fold (batchAlive (Env.out (w t1 (httpxCall hosts codes)))). fold alive.
  replace (Slice.len alive =? 0) with false by (symmetry; by apply Z.eqb_neq).
  reflexivity.
Qed.

(** *** The validator *)

Lemma length_append a b : String.length (a +:+ b) = (String.length a + String.length b)%nat.
Proof. induction a as [|c a IH]; [done|]. rewrite append_String. cbn. by rewrite IH. Qed.

Lemma Contains_dot_split d :
  Contains d "." = true → ∃ a b, d = a +:+ String "." b.
Proof.
  induction d as [|c d IH]; [done|].
  cbn [Contains String.prefix].
  destruct (ascii_dec "." c) as [<-|Hne].
  - intros _. by exists "", d.
  - cbn [orb]. intros Hd. destruct (IH Hd) as (a & b & ->).
    exists (String c a), b. by rewrite append_String.
Qed.

(** A name that passes [isValidDomain] has between 3 and 253 bytes: a dot
    with something before it and something after it. *)
Theorem isValidDomain_length d :
  isValidDomain d = true → (3 ≤ String.length d ≤ 253)%nat.
Proof.
  unfold isValidDomain.
  destruct (_ || _) eqn:Hlen; [done|].
  destruct (ContainsAny _ _); [done|].
  destruct (Contains d ".") eqn:Hdot; [|done]. cbn [negb].
  destruct (HasPrefix d ".") eqn:Hp; [done|].
  destruct (HasSuffix d ".") eqn:Hs; [done|]. intros _.
  apply orb_false_iff in Hlen as [_ Hmax]. apply Nat.ltb_ge in Hmax.
  split; [|done].
  apply Contains_dot_split in Hdot as (a & b & ->).
  rewrite length_append. cbn [String.length].
  destruct a as [|x a];
    [rewrite append_Empty in Hp; unfold HasPrefix in Hp; by destruct b|].
  destruct b as [|y b]; [|cbn; lia].
  exfalso. unfold HasSuffix in Hs. rewrite AmassMore.rev_append in Hs.
  change (String.rev ".") with "." in Hs.
  rewrite append_String, append_Empty in Hs. cbn [String.prefix] in Hs.
  destruct (ascii_dec "." "."); [|done]. by destruct (String.rev (String x a)).
Qed.

End ReconExtra.

(** ** enumeration: ffuf *)

Module EnumerationMore.
Import GoStrings GoInt Enumeration FuffResult.

Lemma IndexByteIn_rev_app s acc c :
  IndexByteIn (String.rev_app s acc) c = IndexByteIn s c || IndexByteIn acc c.
Proof.
  revert acc. induction s as [|x s IH]; intros acc; [done|].
  cbn [String.rev_app IndexByteIn]. rewrite IH. cbn [IndexByteIn].
  by destruct (Ascii.eqb c x), (IndexByteIn s c), (IndexByteIn acc c).
Qed.

Lemma IndexByteIn_rev s c : IndexByteIn (String.rev s) c = IndexByteIn s c.
Proof. unfold String.rev. rewrite IndexByteIn_rev_app. cbn. apply orb_false_r. Qed.

(** No piece of a split holds the separator. *)
Lemma splitGo_no_sep sep cur s x :
  IndexByteIn cur sep = false → x ∈ splitGo sep cur s → IndexByteIn x sep = false.
Proof.
  revert cur. induction s as [|c s IH]; intros cur Hcur; cbn [splitGo].
  - intros ->%list_elem_of_singleton. by rewrite IndexByteIn_rev.
  - destruct (Ascii.eqb c sep) eqn:Hc.
    + intros [->|Hx]%elem_of_cons; [by rewrite IndexByteIn_rev | by apply (IH "")].
    + apply IH. cbn [IndexByteIn]. rewrite Hcur.
      rewrite Ascii.eqb_sym, Hc. done.
Qed.

Lemma ffufLine_hits P hits text :
  (∀ h, IndexByteIn h "," = false → Contains h "error:" = false → P h) →
  Forall P (Slice.elems hits) → Forall P (Slice.elems (ffufLine hits text)).
Proof.
  intros HP Hall. unfold ffufLine.
  destruct (eqb _ "" || _); [done|].
  destruct (Split (TrimSpace text) ",") as [|p0 ps] eqn:Hsplit; [done|].
  destruct (Contains p0 "error:") eqn:Herr; [done|]. cbn [negb Slice.append Slice.elems].
  apply Forall_app. split; [done|]. constructor; [|constructor].
  apply HP; [|done]. apply (splitGo_no_sep "," "" (TrimSpace text)); [done|].
  unfold Split in Hsplit. rewrite Hsplit. constructor.
Qed.

(** Every hit is the first field of a CSV line: it holds no comma, and it
    does not hold "error:". *)
Theorem parseFfufCSVLines_hits csv :
  Forall (λ h, IndexByteIn h "," = false ∧ Contains h "error:" = false)
    (Slice.elems (parseFfufCSVLines csv)).
Proof.
  unfold parseFfufCSVLines.
  apply (fold_left_preserves
           (λ hits, Forall (λ h, IndexByteIn h "," = false ∧ Contains h "error:" = false)
                      (Slice.elems hits))); [|constructor].
  intros hits text Hall. by apply ffufLine_hits.
Qed.

(** The result of [performPathBrute] is never [nil]; its count is the
    number of its entries, except for the one entry that reports that ffuf
    is missing, which is not counted. *)
Theorem performPathBrute_shape w domain wordlist :
  let r := Env.result w (performPathBrute domain wordlist) in
  Domain r = domain
  ∧ Slice.is_nil (Subdomains r) = false
  ∧ (Count r = Slice.len (Subdomains r)
     ∨ (Count r = 0
        ∧ Subdomains r = SList [PathItem.mk "error: ffuf not installed or not in PATH"])).
Proof.
  cbv zeta. unfold Env.result, Env.run, performPathBrute.
  rewrite run_bind, run_call. cbn [fst snd].
  destruct (Env.failed _); [rewrite run_ret; cbn; by auto|].
  rewrite run_bind, run_call. cbn [fst snd].
  rewrite run_bind, run_call. cbn [fst snd].
  destruct (Env.failed _); unfold mret, M_ret, Env.ret; cbn [fst]; [cbn; by auto|].
  split; [done|]. split; [done|]. by left.
Qed.

(** When ffuf is installed, no entry of the result holds "error:": the
    entry that reports a missing ffuf cannot be taken for a finding. *)
Theorem performPathBrute_findings w domain wordlist :
  Env.failed (w [] (Env.LookPath "ffuf")) = false →
  Forall (λ item, Contains (PathItem.Name item) "error:" = false)
    (Slice.elems (Subdomains (Env.result w (performPathBrute domain wordlist)))).
Proof.
  intros Hlp. unfold Env.result, Env.run, performPathBrute.
  rewrite run_bind, run_call. cbn [fst snd]. rewrite Hlp. clear Hlp.
  rewrite run_bind, run_call. cbn [fst snd].
  rewrite run_bind, run_call. cbn [fst snd].
  destruct (Env.failed _); unfold mret, M_ret, Env.ret; cbn [fst]; [constructor|].
  cbn [Subdomains set_Count set_Subdomains Slice.elems].
  apply Forall_fmap. eapply Forall_impl; [apply parseFfufCSVLines_hits|].
  by intros h [_ Hh].
Qed.

End EnumerationMore.

Lemma performPathBrute_findings_witness :
  FuffResult.Subdomains
    (Env.result EnumerationSpec.ffufFinds (Enumeration.performPathBrute "example.com" "w.txt"))
  = SList [PathItem.mk "admin"; PathItem.mk "login"]
  ∧ Forall (λ item, GoStrings.Contains (PathItem.Name item) "error:" = false)
      (Slice.elems
         (FuffResult.Subdomains
            (Env.result EnumerationSpec.ffufFinds
               (Enumeration.performPathBrute "example.com" "w.txt")))).
Proof.
  split; [by vm_compute|].
  apply (EnumerationMore.performPathBrute_findings EnumerationSpec.ffufFinds
           "example.com" "w.txt").
  reflexivity.
Defined.

Lemma performSubdomainEnum_cleanup_witness :
  ∃ mid,
    Env.calls Worlds.nothingFound
      (Recon.performSubdomainEnum "example.com" true "200" false)
    = [Env.LookPath "theHarvester"; Env.LookPath "recon-ng"; Env.TempDir "recon-"]
      ++ mid ++ [Env.RemoveAll "/tmp/recon-1"]
    ∧ Forall (ReconMore.allowed false false) mid.
Proof.
  apply (ReconExtra.performSubdomainEnum_cleanup Worlds.nothingFound
           "example.com" true "200" false).
  intros t. by vm_compute.
Defined.

Lemma probeWithHttpx_batch_witness :
  Env.result
    (λ _ c, match c with
            | Env.Run _ "httpx" _ _ => Worlds.ok "https://www.example.com/ [200]"
            | _ => Worlds.ok ""
            end)
    (Recon.probeWithHttpx ["www.example.com"; "old.example.com"] "200" false)
  = SList ["www.example.com"].
Proof.
  unfold Env.result.
  rewrite (ReconExtra.probeWithHttpx_batch _ ["www.example.com"; "old.example.com"] "200");
    [by vm_compute | done | done | by vm_compute].
Defined.

Lemma isValidDomain_length_witness : (3 ≤ String.length "a.b" ≤ 253)%nat.
Proof. apply ReconExtra.isValidDomain_length. reflexivity. Defined.

(** ** whois.go *)

Module WhoisMore.
Import GoStrings GoTime Whois WhoisResult WhoisSpec WhoisFacts.

#[local] Arguments parseDate : simpl never.
#[local] Arguments formats : simpl never.

Section Sources.
Context `{UnicodeTables}.

(** *** The library first, then the servers in order *)

(** When the library answers with text, no server is asked. *)
Theorem performWhoisLookup_library_first w domain debug :
  silent (w [] (Env.WhoisLib domain)) = false →
  Env.calls w (performWhoisLookup domain debug) = [Env.WhoisLib domain]
  ∧ Env.result w (performWhoisLookup domain debug)
    = parseRaw (Env.out (w [] (Env.WhoisLib domain)))
        (if debug then set_Raw (Env.out (w [] (Env.WhoisLib domain))) (blank domain)
         else blank domain).
Proof.
  intros Hs. pose proof Hs as Hs'. unfold silent in Hs'.
  apply orb_false_iff in Hs' as [Hf Hb].
  unfold Env.calls, Env.result, Env.run, performWhoisLookup.
  rewrite run_bind, run_call. cbn [fst snd].
  fold (silent (w [] (Env.WhoisLib domain))). rewrite Hs.
  rewrite run_bind, run_ret. cbn [fst snd]. rewrite Hb. by rewrite run_ret.
Qed.

Lemma fallbackWhoisFrom_first pre srv post domain w t :
  (∀ t s, s ∈ pre → silent (w t (Env.TcpWhois domain s)) = true) →
  (∀ t, silent (w t (Env.TcpWhois domain srv)) = false) →
  ∃ t', fallbackWhoisFrom (pre ++ srv :: post) domain w t
        = ((Env.out (w t' (Env.TcpWhois domain srv)), None),
           t' ++ [(Env.TcpWhois domain srv, w t' (Env.TcpWhois domain srv))])
        ∧ t'.*1 = t.*1 ++ (Env.TcpWhois domain <$> pre).
Proof.
  intros Hpre Hsrv. revert t. induction pre as [|s pre IH]; intros t.
  - exists t. cbn [app fallbackWhoisFrom]. rewrite run_bind, run_call. cbn [fst snd].
    pose proof (Hsrv t) as Hs. unfold silent in Hs.
    apply orb_false_iff in Hs as [-> ->]. cbn [negb andb].
    split; [done | by rewrite app_nil_r].
  - cbn [app fallbackWhoisFrom]. rewrite run_bind, run_call. cbn [fst snd].
    rewrite (silent_rejected _ (Hpre t s ltac:(constructor))).
    destruct (IH (λ t0 s0 Hs0, Hpre t0 s0 ltac:(by constructor))
                (t ++ [(Env.TcpWhois domain s, w t (Env.TcpWhois domain s))]))
      as (t' & Hrun & Hcalls).
    exists t'. split; [done|].
    rewrite Hcalls, fmap_app. cbn [fmap list_fmap fst]. by rewrite <- app_assoc.
Qed.

(** When the library gives nothing, the servers are asked in order up to
    the first that answers with text; its answer is parsed and the servers
    after it are not asked. *)
Theorem performWhoisLookup_first_server w domain debug pre srv post :
  servers = pre ++ srv :: post →
  silent (w [] (Env.WhoisLib domain)) = true →
  (∀ t s, s ∈ pre → silent (w t (Env.TcpWhois domain s)) = true) →
  (∀ t, silent (w t (Env.TcpWhois domain srv)) = false) →
  Env.calls w (performWhoisLookup domain debug)
  = Env.WhoisLib domain :: (Env.TcpWhois domain <$> pre ++ [srv])
  ∧ ∃ t, Env.result w (performWhoisLookup domain debug)
         = parseRaw (Env.out (w t (Env.TcpWhois domain srv)))
             (if debug then set_Raw (Env.out (w t (Env.TcpWhois domain srv))) (blank domain)
              else blank domain).
Proof.
  intros Hsrvs Hlib Hpre Hsrv.
  unfold Env.calls, Env.result, Env.run, performWhoisLookup.
  rewrite run_bind, run_call. cbn [fst snd].
  fold (silent (w [] (Env.WhoisLib domain))). rewrite Hlib.
  rewrite run_bind. unfold fallbackWhois. rewrite Hsrvs.
  rewrite (run_bind (fallbackWhoisFrom (pre ++ srv :: post) domain)).
  destruct (fallbackWhoisFrom_first pre srv post domain w
              ([] ++ [(Env.WhoisLib domain, w [] (Env.WhoisLib domain))]) Hpre Hsrv)
    as (t' & -> & Hcalls).
  rewrite run_ret. cbn [fst snd].
  pose proof (Hsrv t') as Hs. unfold silent in Hs.
  apply orb_false_iff in Hs as [_ ->]. rewrite run_ret. cbn [fst snd].
  split; [|by exists t'].
  rewrite fmap_app, Hcalls, fmap_app. cbn [fmap list_fmap fst app].
  by rewrite (fmap_app _ pre [srv]).
Qed.

(** *** What the lookup never touches *)

Lemma classify_frame key value result :
  Domain (classify key value result) = Domain result
  ∧ Contacts (classify key value result) = Contacts result
  ∧ Raw (classify key value result) = Raw result.
Proof.
  unfold classify.
  repeat match goal with
         | |- context [if ?b then _ else _] => destruct b
         end; done.
Qed.

Lemma parseRaw_frame raw result :
  Domain (parseRaw raw result) = Domain result
  ∧ Contacts (parseRaw raw result) = Contacts result
  ∧ Raw (parseRaw raw result) = Raw result.
Proof.
  unfold parseRaw.
  apply (fold_left_preserves
           (λ r, Domain r = Domain result ∧ Contacts r = Contacts result
                 ∧ Raw r = Raw result)); [|done].
  intros r text (Hd & Hc & Hr). unfold parseLine.
  destruct (_ || _); [done|]. destruct (eqb _ ""); [done|].
  destruct (classify_frame (TrimSpace (ToLower (nth 0 (SplitN2 (TrimSpace text) ":") "")))
              (TrimSpace (nth 1 (SplitN2 (TrimSpace text) ":") "")) r) as (-> & -> & ->).
  done.
Qed.

(** The result is about the domain asked for, its contact records are
    never filled in, and the raw response is part of it only with debug on
    (or as the note that every source was empty). *)
Theorem performWhoisLookup_frame w domain debug :
  let r := Env.result w (performWhoisLookup domain debug) in
  Domain r = domain
  ∧ Contacts r = Contacts.zero
  ∧ (debug = true ∨ Raw r = "" ∨ Raw r = "empty response from all whois sources").
Proof.
  cbv zeta. unfold Env.result, Env.run, performWhoisLookup.
  rewrite run_bind, run_call. cbn [fst snd]. rewrite run_bind.
  match goal with
  | |- context [(if Env.failed ?r || ?c then ?a else ?b) w ?t] =>
    destruct ((if Env.failed r || c then a else b) w t) as [raw t']
  end.
  cbn [fst snd].
  destruct (eqb (TrimSpace raw) ""); rewrite run_ret; cbn [fst].
  - split; [by destruct debug|]. split; [by destruct debug|]. right. by right.
  - pose proof (parseRaw_frame raw (if debug then set_Raw raw (blank domain)
                                    else blank domain)) as (Hd & Hc & Hr).
    unfold blank in Hd, Hc, Hr. rewrite Hd, Hc, Hr.
    split; [by destruct debug|]. split; [by destruct debug|].
    destruct debug; [by left | right; by left].
Qed.

End Sources.

End WhoisMore.

Lemma performWhoisLookup_library_first_witness :
  Env.calls (Worlds.whoisAnswers "Registrar: Example Registrar, Inc.")
    (@Whois.performWhoisLookup asciiTables "example.com" false)
  = [Env.WhoisLib "example.com"]
  ∧ Env.result (Worlds.whoisAnswers "Registrar: Example Registrar, Inc.")
      (@Whois.performWhoisLookup asciiTables "example.com" false)
    = @Whois.parseRaw asciiTables "Registrar: Example Registrar, Inc."
        (WhoisSpec.blank "example.com").
Proof.
  apply (@WhoisMore.performWhoisLookup_library_first asciiTables
           (Worlds.whoisAnswers "Registrar: Example Registrar, Inc.") "example.com" false).
  by vm_compute.
Defined.

Lemma performWhoisLookup_first_server_witness :
  Env.calls Worlds.ianaAnswers (@Whois.performWhoisLookup asciiTables "example.com" false)
  = [Env.WhoisLib "example.com";
     Env.TcpWhois "example.com" "whois.verisign-grs.com:43";
     Env.TcpWhois "example.com" "whois.iana.org:43"].
Proof.
  apply (@WhoisMore.performWhoisLookup_first_server asciiTables Worlds.ianaAnswers
           "example.com" false ["whois.verisign-grs.com:43"] "whois.iana.org:43"
           ["whois.nic.ru:43"; "whois.godaddy.com:43"]).
  - reflexivity.
  - by vm_compute.
  - intros t s Hs. apply list_elem_of_singleton in Hs. subst. by vm_compute.
  - intros t. by vm_compute.
Defined.
